(** * farchievements-server: the [/notify-achievement] endpoint of [src/index.ts]

    A shallow embedding of the request pipeline
    [authenticateRequest -> upload.single -> handler] and of the Discord
    message the handler composes, followed by the properties of the
    pipeline.

    A request is one that Express hands to the route: the CORS middleware,
    the routing by method and path and [express.json()] stand in front of
    it and are not part of the pipeline modelled here; the origin function
    of the CORS options, the start-up test on the environment and the
    callbacks of the chat client are modelled on their own.  What lies
    outside [src/index.ts] is taken as given:
    - the JavaScript runtime ([JSON.parse], [Number] to string conversion)
      is a class [JSRuntime];
    - the outcome of multer's [upload.single('achievementImageFile')] is
      part of the request;
    - the chat library (discord.js) is an oracle [Discord]: what
      [client.channels.fetch] resolves to, whether a builder call or
      [channel.send] throws, and the clock.

    A run is the list of its observable events (console entries, the
    response, the calls to the chat service) with the way it completes.
    Strings are sequences of bytes; the code only tests prefixes, splits
    at a space and concatenates, which read the same on bytes as on
    UTF-16 code units. *)

From Stdlib Require Import String Ascii List ZArith NArith Bool Lia.
From Stdlib Require Import Floats.SpecFloat DecimalString.
Import ListNotations.
Local Open Scope string_scope.

Set Warnings "-register-all".

(** ** JavaScript values *)

(** The values [JSON.parse] can build, and [undefined] for an absent
    property.  Numbers are IEEE doubles.  An object is the list of its own
    properties; a key is looked up at its first binding. *)
Inductive JSValue : Type :=
| JSUndefined
| JSNull
| JSBoolean (b : bool)
| JSNumber (d : spec_float)
| JSString (s : string)
| JSArray (items : list JSValue)
| JSObject (props : list (string * JSValue)).

Inductive JSError : Type :=
| TypeError (message : string)
| SyntaxError (message : string)
| PlainError (message : string)
| LibraryError (message : string).

Definition error_message (e : JSError) : string :=
  match e with
  | TypeError m | SyntaxError m | PlainError m | LibraryError m => m
  end.

Class JSRuntime : Type := {
  (** [JSON.parse(text)]: the parsed value, or the [SyntaxError] thrown. *)
  JSON_parse : string -> JSError + JSValue;
  (** [Number.prototype.toString] on a double. *)
  Number_toString : spec_float -> string
}.

(** [ToBoolean]: what [!v], [v && ...] and [if (v)] test. *)
Definition truthy (v : JSValue) : bool :=
  match v with
  | JSUndefined | JSNull => false
  | JSBoolean b => b
  | JSNumber (S754_zero _) | JSNumber S754_nan => false
  | JSNumber _ => true
  | JSString s => negb (s =? "")
  | JSArray _ | JSObject _ => true
  end.

Fixpoint lookup_prop (key : string) (props : list (string * JSValue)) : option JSValue :=
  match props with
  | [] => None
  | (k, v) :: rest => if k =? key then Some v else lookup_prop key rest
  end.

(** ** Effects: a trace of observable events and JavaScript completions *)

Inductive Completion (A : Type) : Type :=
| Normal (a : A)
| Throw (e : JSError)
| Return.                         (* a bare [return;] of the enclosing function *)
Arguments Normal {A} a.
Arguments Throw {A} e.
Arguments Return {A}.

Section Effects.
Variable Event : Type.

Definition Eff (A : Type) : Type := Completion A * list Event.

Definition pure {A} (a : A) : Eff A := (Normal a, []).
Definition throw {A} (e : JSError) : Eff A := (Throw e, []).
Definition return_ {A} : Eff A := (Return, []).
Definition emit (ev : Event) : Eff unit := (Normal tt, [ev]).

Definition bind {A B} (m : Eff A) (k : A -> Eff B) : Eff B :=
  match m with
  | (Normal a, t) => let (c, t') := k a in (c, (t ++ t')%list)
  | (Throw e, t) => (Throw e, t)
  | (Return, t) => (Return, t)
  end.

(** [try { m } catch (e) { handler e }]: a [return;] inside [m] is not
    caught. *)
Definition try_catch {A} (m : Eff A) (handler : JSError -> Eff A) : Eff A :=
  match m with
  | (Throw e, t) => let (c, t') := handler e in (c, (t ++ t')%list)
  | other => other
  end.
End Effects.

Arguments pure {Event A} a.
Arguments throw {Event A} e.
Arguments return_ {Event A}.
Arguments emit {Event} ev.
Arguments bind {Event A B} m k.
Arguments try_catch {Event A} m handler.

Declare Scope eff_scope.
Delimit Scope eff_scope with eff.
Notation "x <- m ;; k" := (bind m (fun x => k))
  (at level 61, m at next level, right associativity) : eff_scope.
Notation "m ;; k" := (bind m (fun _ => k))
  (at level 61, right associativity) : eff_scope.
Local Open Scope eff_scope.

(** ** Strings as the code uses them *)

(** [s.startsWith(p)] *)
Definition startsWith (s p : string) : bool := String.prefix p s.

(** [s.split(sep)] for a one-character separator. *)
Fixpoint split (sep : ascii) (s : string) : list string :=
  match s with
  | EmptyString => [EmptyString]
  | String c rest =>
      if Ascii.eqb c sep then EmptyString :: split sep rest
      else match split sep rest with
           | seg :: segs => String c seg :: segs
           | [] => [String c EmptyString]
           end
  end.

(** [ToString], as a template literal applies it.  An array is joined
    with commas, [null] and [undefined] elements giving the empty string.
    An object built by [JSON.parse] inherits [Object.prototype.toString]
    unless it has an own [toString] property, which is never callable:
    the conversion then throws. *)
Section ToString.
Context {rt : JSRuntime}.

Fixpoint ToString (v : JSValue) : JSError + string :=
  match v with
  | JSUndefined => inr "undefined"
  | JSNull => inr "null"
  | JSBoolean true => inr "true"
  | JSBoolean false => inr "false"
  | JSNumber d => inr (Number_toString d)
  | JSString s => inr s
  | JSArray items =>
      let element (x : JSValue) : JSError + string :=
        match x with
        | JSUndefined | JSNull => inr ""
        | _ => ToString x
        end in
      (fix join (l : list JSValue) : JSError + string :=
         match l with
         | [] => inr ""
         | [x] => element x
         | x :: rest =>
             match element x with
             | inl e => inl e
             | inr sx =>
                 match join rest with
                 | inl e => inl e
                 | inr sr => inr (sx ++ "," ++ sr)
                 end
             end
         end) items
  | JSObject props =>
      match lookup_prop "toString" props with
      | Some _ => inl (TypeError "Cannot convert object to primitive value")
      | None => inr "[object Object]"
      end
  end.
End ToString.

(** ** Requests, the chat library and the observable events *)

(** [req.file] as multer's memory storage leaves it. *)
Record UploadedFile : Type := {
  originalname : option string;     (* [undefined] when the part has no filename *)
  buffer : list Byte.byte;
  size : N;
  mimetype : string
}.

(** [req.body], of which the handler reads the text field [jsonData]. *)
Record Body : Type := {
  jsonData : option string
}.

(** What [upload.single('achievementImageFile')] makes of the multipart
    body: it fills [req.body] and [req.file] and calls [next()], or it
    passes an error on (a file over the 8 MiB limit, a malformed body). *)
Inductive MulterResult : Type :=
| MulterError (e : JSError)
| MulterParsed (body : Body) (file : option UploadedFile).

Record Request : Type := {
  authorization : option string;    (* [req.headers.authorization] *)
  multipart : MulterResult
}.

(** [AttachmentBuilder] *)
Record Attachment : Type := {
  attachment : list Byte.byte;
  name : string
}.

(** The data of an [EmbedBuilder].  [image] and [thumbnail] are the two
    picture slots of an embed, set by [setImage] and [setThumbnail]. *)
Record Embed : Type := {
  color : option string;
  title : option string;
  description : option string;
  timestamp : option Z;
  fields : list (string * JSValue);
  image : option string;
  thumbnail : option string
}.

Definition emptyEmbed : Embed :=
  {| color := None; title := None; description := None; timestamp := None;
     fields := []; image := None; thumbnail := None |}.

Inductive BuilderCall : Type :=
| SetColor (c : string)
| SetTitle (t : string)
| SetDescription (d : string)
| SetTimestamp (t : Z)
| AddFields (fieldName : string) (value : JSValue)
| NewAttachment (data : list Byte.byte) (fileName : string)
| SetImage (url : string)
| SetThumbnail (url : string).

(** What [client.channels.fetch] resolves to. *)
Inductive Channel : Type :=
| TextChannel
| OtherChannel.                   (* a voice channel, a category, a DM, ... *)

Inductive FetchResult : Type :=
| FetchRejected (e : JSError)
| FetchResolved (channel : option Channel).     (* [None] is [null] *)

(** The chat library as the handler meets it during one request. *)
Record Discord : Type := {
  channels_fetch : string -> FetchResult;
  (** the error a builder call throws when its validation refuses the
      argument *)
  builder_throws : BuilderCall -> option JSError;
  (** the error [channel.send] rejects with *)
  send_rejects : Embed -> list Attachment -> option JSError;
  (** [new Date()] *)
  now : Z
}.

Inductive ResponseBody : Type :=
| ErrorBody (error : string)        (* [{ error: ... }] *)
| MessageBody (message : string).   (* [{ message: ... }] *)

Inductive ConsoleLevel : Type := Log | Warn | Error.

Inductive ConsoleArg : Type :=
| ArgString (s : string)
| ArgValue (v : JSValue)
| ArgBody (b : Body)
| ArgError (e : JSError).

Inductive Event : Type :=
| Console (level : ConsoleLevel) (text : string) (rest : list ConsoleArg)
| Respond (status : Z) (body : ResponseBody)    (* [res.status(s).json(b)] *)
| NextError (e : JSError)                       (* [next(err)]: left to Express *)
| ChannelsFetch (id : string)                   (* [client.channels.fetch(id)] *)
| ChannelSend (embed : Embed) (files : list Attachment).  (* [channel.send(...)] *)

Definition M : Type -> Type := Eff Event.

Definition console (level : ConsoleLevel) (text : string) (rest : list ConsoleArg) : M unit :=
  emit (Console level text rest).

Definition respond (status : Z) (body : ResponseBody) : M unit :=
  emit (Respond status body).

(** Lift a conversion that may throw. *)
Definition lift {A} (r : JSError + A) : M A :=
  match r with
  | inl e => throw e
  | inr a => pure a
  end.

(** The four properties the handler destructures out of the payload. *)
Record Payload : Type := {
  userName : JSValue;
  achievementName : JSValue;
  achievementDescription : JSValue;
  iconSource : JSValue
}.

(** [payload.key]: an own property of an object; nothing else that
    [JSON.parse] builds has one of the four keys. *)
Definition get_prop (payload : JSValue) (key : string) : JSValue :=
  match payload with
  | JSObject props =>
      match lookup_prop key props with
      | Some v => v
      | None => JSUndefined
      end
  | _ => JSUndefined
  end.

Definition payloadOf (payload : JSValue) : Payload :=
  {| userName := get_prop payload "userName";
     achievementName := get_prop payload "achievementName";
     achievementDescription := get_prop payload "achievementDescription";
     iconSource := get_prop payload "iconSource" |}.

(** [const { userName, ... } = payload]: destructuring [null] throws. *)
Definition destructure (payload : JSValue) : M Payload :=
  match payload with
  | JSNull | JSUndefined =>
      throw (TypeError "Cannot destructure property 'userName' of 'payload'")
  | _ => pure (payloadOf payload)
  end.

(** [v.startsWith(p)] on a payload value: only a string has the method. *)
Definition value_startsWith (v : JSValue) (p : string) : M bool :=
  match v with
  | JSString s => pure (startsWith s p)
  | _ => throw (TypeError "iconSource.startsWith is not a function")
  end.

(** ** The builders of the chat library *)

Section Builders.
Variable discord : Discord.

(** A builder call throws when the library's validation refuses it. *)
Definition validated (call : BuilderCall) : M unit :=
  match builder_throws discord call with
  | Some e => throw e
  | None => pure tt
  end.

Definition setColor (e : Embed) (c : string) : M Embed :=
  validated (SetColor c) ;;
  pure {| color := Some c; title := title e; description := description e;
          timestamp := timestamp e; fields := fields e; image := image e;
          thumbnail := thumbnail e |}.

Definition setTitle (e : Embed) (t : string) : M Embed :=
  validated (SetTitle t) ;;
  pure {| color := color e; title := Some t; description := description e;
          timestamp := timestamp e; fields := fields e; image := image e;
          thumbnail := thumbnail e |}.

Definition setDescription (e : Embed) (d : string) : M Embed :=
  validated (SetDescription d) ;;
  pure {| color := color e; title := title e; description := Some d;
          timestamp := timestamp e; fields := fields e; image := image e;
          thumbnail := thumbnail e |}.

Definition setTimestamp (e : Embed) (t : Z) : M Embed :=
  validated (SetTimestamp t) ;;
  pure {| color := color e; title := title e; description := description e;
          timestamp := Some t; fields := fields e; image := image e;
          thumbnail := thumbnail e |}.

Definition addFields (e : Embed) (fieldName : string) (value : JSValue) : M Embed :=
  validated (AddFields fieldName value) ;;
  pure {| color := color e; title := title e; description := description e;
          timestamp := timestamp e;
          fields := (fields e ++ [(fieldName, value)])%list;
          image := image e; thumbnail := thumbnail e |}.

Definition setImage (e : Embed) (url : string) : M Embed :=
  validated (SetImage url) ;;
  pure {| color := color e; title := title e; description := description e;
          timestamp := timestamp e; fields := fields e; image := Some url;
          thumbnail := thumbnail e |}.

Definition setThumbnail (e : Embed) (url : string) : M Embed :=
  validated (SetThumbnail url) ;;
  pure {| color := color e; title := title e; description := description e;
          timestamp := timestamp e; fields := fields e; image := image e;
          thumbnail := Some url |}.

Definition newAttachment (data : list Byte.byte) (fileName : string) : M Attachment :=
  validated (NewAttachment data fileName) ;;
  pure {| attachment := data; name := fileName |}.
End Builders.

(** ** The server *)

(** [`${n}`] for a byte count. *)
Definition decimal (n : N) : string := NilZero.string_of_uint (N.to_uint n).

(** [`${s}`] for a string that may be [undefined]. *)
Definition optional_text (s : option string) : string :=
  match s with
  | Some text => text
  | None => "undefined"
  end.

(** A function call: a [return;] ends the callee, not the caller. *)
Definition call (body : M unit) : M unit :=
  match body with
  | (Return, t) => (Normal tt, t)
  | other => other
  end.

Definition embedTitle : string := "🏆 Achievement Unlocked! 🎉".

(** [`**${userName}** has unlocked the achievement: **${achievementName}**!`] *)
Definition embedDescription (user achievement : string) : string :=
  "**" ++ user ++ "** has unlocked the achievement: **" ++ achievement ++ "**!".

(** [`achievement-${achievementName}.png`] *)
Definition generatedName (achievement : string) : string :=
  "achievement-" ++ achievement ++ ".png".

Section Server.
Context {rt : JSRuntime}.
Variable EXPECTED_SECRET : string.      (* [process.env.FOUNDRY_SECRET] *)
Variable TARGET_CHANNEL_ID : string.    (* [process.env.DISCORD_CHANNEL_ID] *)
Variable discordReady : bool.           (* the flag the ['ready'] event sets *)
Variable discord : Discord.

(** [authHeader.split(' ')[1]] *)
Definition providedSecret (authHeader : string) : option string :=
  nth_error (split " " authHeader) 1.

(** [providedSecret !== EXPECTED_SECRET] *)
Definition secret_differs (provided : option string) : bool :=
  match provided with
  | Some s => negb (s =? EXPECTED_SECRET)
  | None => true
  end.

(** [!authHeader || !authHeader.startsWith('Bearer ')] *)
Definition header_missing_or_invalid (authHeader : option string) : bool :=
  match authHeader with
  | None => true
  | Some h => (h =? "") || negb (startsWith h "Bearer ")
  end.

Definition authenticateRequest (req : Request) (next : M unit) : M unit :=
  call
    (let authHeader := authorization req in
     (if header_missing_or_invalid authHeader then
        console Warn "Authentication failed: Missing or invalid Authorization header." [] ;;
        respond 401 (ErrorBody "Unauthorized: Missing authorization header") ;;
        return_
      else pure tt) ;;
     let provided :=
       match authHeader with
       | Some h => providedSecret h
       | None => None
       end in
     (if secret_differs provided then
        console Warn "Authentication failed: Invalid secret." [] ;;
        respond 403 (ErrorBody "Forbidden: Invalid secret") ;;
        return_
      else pure tt) ;;
     next).

(** [upload.single('achievementImageFile')] *)
Definition upload_single (req : Request)
    (next : Body -> option UploadedFile -> M unit) : M unit :=
  match multipart req with
  | MulterError e => emit (NextError e)
  | MulterParsed body file => next body file
  end.

(** [client.channels.fetch(TARGET_CHANNEL_ID)], awaited. *)
Definition fetchChannel : M (option Channel) :=
  emit (ChannelsFetch TARGET_CHANNEL_ID) ;;
  match channels_fetch discord TARGET_CHANNEL_ID with
  | FetchRejected e => throw e
  | FetchResolved channel => pure channel
  end.

(** [channel.send({ embeds: [embed], files: filesToAttach })], awaited. *)
Definition channelSend (embed : Embed) (files : list Attachment) : M unit :=
  emit (ChannelSend embed files) ;;
  match send_rejects discord embed files with
  | Some e => throw e
  | None => pure tt
  end.

(** [uploadedFile.originalname || `achievement-${achievementName}.png`] *)
Definition attachmentName (file : UploadedFile) (p : Payload) : M string :=
  match originalname file with
  | Some original =>
      if original =? "" then
        a <- lift (ToString (achievementName p)) ;; pure (generatedName a)
      else pure original
  | None => a <- lift (ToString (achievementName p)) ;; pure (generatedName a)
  end.

(** [iconSource && (iconSource.startsWith('http://') ||
    iconSource.startsWith('https://'))] *)
Definition iconSourceUsable (p : Payload) : M bool :=
  if truthy (iconSource p) then
    plain <- value_startsWith (iconSource p) "http://" ;;
    if plain then pure true else value_startsWith (iconSource p) "https://"
  else pure false.

(** The embed with its text: title, description, timestamp and the
    optional field. *)
Definition describe (p : Payload) : M Embed :=
  embed <- setColor discord emptyEmbed "#00FF00" ;;
  embed <- setTitle discord embed embedTitle ;;
  u <- lift (ToString (userName p)) ;;
  a <- lift (ToString (achievementName p)) ;;
  embed <- setDescription discord embed (embedDescription u a) ;;
  embed <- setTimestamp discord embed (now discord) ;;
  if truthy (achievementDescription p) then
    addFields discord embed "Description" (achievementDescription p)
  else pure embed.

(** The picture: the uploaded file, else the icon URL, else none. *)
Definition illustrate (embed : Embed) (p : Payload)
    (uploadedFile : option UploadedFile) : M (Embed * list Attachment) :=
  match uploadedFile with
  | Some file =>
      fileName <- attachmentName file p ;;
      att <- newAttachment discord (buffer file) fileName ;;
      embed <- setImage discord embed ("attachment://" ++ name att) ;;
      pure (embed, [att])
  | None =>
      usable <- iconSourceUsable p ;;
      if usable then
        match iconSource p with
        | JSString url =>
            console Log "No file uploaded, using iconSource URL as thumbnail:"
                    [ArgValue (iconSource p)] ;;
            embed <- setThumbnail discord embed url ;;
            pure (embed, [])
        | _ => pure (embed, [])     (* not reached: only a string is usable *)
        end
      else pure (embed, [])
  end.

(** The message of one notification: the embed and the files to attach. *)
Definition composeMessage (p : Payload) (uploadedFile : option UploadedFile)
    : M (Embed * list Attachment) :=
  embed <- describe p ;;
  illustrate embed p uploadedFile.

(** The [try] block of the handler and its [catch]. *)
Definition dispatch (p : Payload) (uploadedFile : option UploadedFile) : M unit :=
  try_catch
    (channel <- fetchChannel ;;
     (match channel with
      | Some TextChannel => pure tt
      | _ =>
          respond 500 (ErrorBody
            "Internal Server Error: Could not find or use target Discord channel") ;;
          return_
      end) ;;
     message <- composeMessage p uploadedFile ;;
     channelSend (fst message) (snd message) ;;
     u <- lift (ToString (userName p)) ;;
     console Log ("Successfully sent notification for " ++ u
                  ++ " to Discord channel " ++ TARGET_CHANNEL_ID) [] ;;
     respond 200 (MessageBody "Notification sent successfully"))
    (fun error =>
       u <- lift (ToString (userName p)) ;;
       console Error ("Error processing notification or sending to Discord for "
                      ++ u ++ ":") [ArgError error] ;;
       respond 500 (ErrorBody
         "Internal Server Error: Failed to send Discord notification")).

(** [JSON.parse(req.body.jsonData)] behind the check that the field is
    there, inside its [try]. *)
Definition parsePayload (body : Body) : M JSValue :=
  try_catch
    (match jsonData body with
     | None => throw (PlainError "Missing jsonData field in request body.")
     | Some text =>
         if text =? "" then
           throw (PlainError "Missing jsonData field in request body.")
         else lift (JSON_parse text)
     end)
    (fun e =>
       console Warn "Failed to parse jsonData:"
               [ArgString (error_message e); ArgString "Body:"; ArgBody body] ;;
       respond 400 (ErrorBody "Bad Request: Invalid or missing jsonData field.") ;;
       return_).

(** The handler of [POST /notify-achievement]. *)
Definition notifyAchievement (body : Body) (uploadedFile : option UploadedFile)
    : M unit :=
  (if negb discordReady then
     console Error "Discord client not ready, cannot send notification yet." [] ;;
     respond 503 (ErrorBody "Service Unavailable: Discord client not ready") ;;
     return_
   else pure tt) ;;
  payload <- parsePayload body ;;
  p <- destructure payload ;;
  (if negb (truthy (userName p)) || negb (truthy (achievementName p)) then
     console Warn "Received invalid payload:" [ArgValue payload] ;;
     respond 400 (ErrorBody "Bad Request: Missing userName or achievementName") ;;
     return_
   else pure tt) ;;
  u <- lift (ToString (userName p)) ;;
  a <- lift (ToString (achievementName p)) ;;
  console Log ("Received achievement notification for " ++ u ++ " - " ++ a) [] ;;
  (match uploadedFile with
   | Some file =>
       console Log ("Received file: " ++ optional_text (originalname file)
                    ++ ", size: " ++ decimal (size file)
                    ++ ", type: " ++ mimetype file) []
   | None => console Log "No file uploaded with this request." []
   end) ;;
  dispatch p uploadedFile.

(** [app.post('/notify-achievement', authenticateRequest,
    upload.single('achievementImageFile'), handler)].  A [Throw] at this
    level is the rejection of the handler's promise, which nothing in
    the file handles. *)
Definition route (req : Request) : M unit :=
  authenticateRequest req
    (upload_single req (fun body file => call (notifyAchievement body file))).
End Server.

(** ** Observations on a run *)

Definition trace {A} (m : M A) : list Event := snd m.

(** The responses written, in order. *)
Fixpoint responses (t : list Event) : list (Z * ResponseBody) :=
  match t with
  | [] => []
  | Respond status body :: rest => (status, body) :: responses rest
  | _ :: rest => responses rest
  end.

(** A call to the chat service. *)
Definition is_chat_call (ev : Event) : bool :=
  match ev with
  | ChannelsFetch _ | ChannelSend _ _ => true
  | _ => false
  end.

Definition contacts_chat (t : list Event) : bool := existsb is_chat_call t.

(** The messages handed to [channel.send], in order. *)
Fixpoint sends (t : list Event) : list (Embed * list Attachment) :=
  match t with
  | [] => []
  | ChannelSend embed files :: rest => (embed, files) :: sends rest
  | _ :: rest => sends rest
  end.

Definition is_console (ev : Event) : bool :=
  match ev with
  | Console _ _ _ => true
  | _ => false
  end.

(** The channels fetched, in order. *)
Fixpoint fetches (t : list Event) : list string :=
  match t with
  | [] => []
  | ChannelsFetch id :: rest => id :: fetches rest
  | _ :: rest => fetches rest
  end.

(** ** Configuration and start-up *)

(** [process.env]: a variable is a string or [undefined]. *)
Definition Env : Type := string -> option string.

(** [!v] for a string that may be [undefined] *)
Definition falsy_text (v : option string) : bool :=
  match v with
  | None => true
  | Some s => s =? ""
  end.

(** [process.env.PORT || 3000]: the text of the variable or the number. *)
Inductive Port : Type :=
| PortText (s : string)
| PortNumber (n : Z).

Record Configuration : Type := {
  configPort : Port;              (* [PORT] *)
  configSecret : string;          (* [EXPECTED_SECRET] *)
  configChannel : string;         (* [TARGET_CHANNEL_ID] *)
  configToken : string            (* [BOT_TOKEN] *)
}.

Inductive Startup : Type :=
| Exit (code : Z) (log : list Event)      (* [process.exit(code)] *)
| Started (config : Configuration).

Definition missingVariables : Event :=
  Console Error
    "ERROR: Missing required environment variables (FOUNDRY_SECRET, DISCORD_CHANNEL_ID, BOT_TOKEN)."
    [].

(** Lines 15 to 23: the four constants and the test that stops the
    process. *)
Definition startup (env : Env) : Startup :=
  let port :=
    match env "PORT" with
    | Some s => if s =? "" then PortNumber 3000 else PortText s
    | None => PortNumber 3000
    end in
  if falsy_text (env "FOUNDRY_SECRET") || falsy_text (env "DISCORD_CHANNEL_ID")
     || falsy_text (env "DISCORD_BOT_TOKEN") then
    Exit 1 [missingVariables]
  else
    match env "FOUNDRY_SECRET", env "DISCORD_CHANNEL_ID", env "DISCORD_BOT_TOKEN" with
    | Some secret, Some channel, Some token =>
        Started {| configPort := port; configSecret := secret;
                   configChannel := channel; configToken := token |}
    | _, _, _ => Exit 1 [missingVariables]      (* not reached *)
    end.

(** ** The chat client's life *)

(** The process as the handlers see it: the flag [discordReady], whether
    the listener of [client.once('ready', ...)] is still registered, and
    the exit code once [process.exit] was called. *)
Record Process : Type := {
  readyFlag : bool;
  readyListener : bool;
  exited : option Z
}.

Definition initialProcess : Process :=
  {| readyFlag := false; readyListener := true; exited := None |}.

Inductive ClientEvent : Type :=
| ClientReady (tag : option string)  (* ['ready'] is emitted; [client.user?.tag] *)
| ClientError (e : JSError)          (* ['error'] is emitted *)
| LoginRejected (e : JSError).       (* the promise of [client.login] rejects *)

(** Lines 34 to 49: the three callbacks on the client. *)
Definition onClientEvent (st : Process) (ev : ClientEvent) : Process * list Event :=
  match exited st with
  | Some _ => (st, [])
  | None =>
      match ev with
      | ClientReady tag =>
          if readyListener st then
            ({| readyFlag := true; readyListener := false; exited := None |},
             [Console Log ("Discord client logged in as " ++ optional_text tag) []])
          else (st, [])
      | ClientError e => (st, [Console Error "Discord client error:" [ArgError e]])
      | LoginRejected e =>
          ({| readyFlag := readyFlag st; readyListener := readyListener st;
              exited := Some 1%Z |},
           [Console Error "Failed to log in Discord client:" [ArgError e]])
      end
  end.

(** What reaches the process: an event of the chat client, or a request
    on the route with what the chat library does during it. *)
Inductive Input : Type :=
| FromClient (ev : ClientEvent)
| FromHttp (req : Request) (discord : Discord).

Section ServerLoop.
Context {rt : JSRuntime}.
Variable EXPECTED_SECRET : string.
Variable TARGET_CHANNEL_ID : string.

(** One input: a request reads the flag as it stands when the handler
    starts.  The events of one request are kept together. *)
Definition step (st : Process) (input : Input) : Process * list Event :=
  match exited st with
  | Some _ => (st, [])
  | None =>
      match input with
      | FromClient ev => onClientEvent st ev
      | FromHttp req discord =>
          (st, trace (route EXPECTED_SECRET TARGET_CHANNEL_ID (readyFlag st) discord req))
      end
  end.

Fixpoint serve (st : Process) (inputs : list Input) : Process * list Event :=
  match inputs with
  | [] => (st, [])
  | input :: rest =>
      let (st', t) := step st input in
      let (st'', t') := serve st' rest in
      (st'', (t ++ t')%list)
  end.
End ServerLoop.

(** ** Cross-origin requests *)

Definition allowedOrigins : list string :=
  ["http://localhost:30000"; "https://your-foundry-domain.com"].

(** [l.indexOf(x)]: the first index of [x], or [-1]. *)
Fixpoint indexOfFrom (x : string) (l : list string) (i : Z) : Z :=
  match l with
  | [] => (-1)%Z
  | y :: rest => if y =? x then i else indexOfFrom x rest (i + 1)%Z
  end.

Definition indexOf (l : list string) (x : string) : Z := indexOfFrom x l 0.

(** The [origin] function of [corsOptions]: what it passes to [callback],
    an error or [true]. *)
Definition corsOrigin (origin : option string) : M (JSError + bool) :=
  if falsy_text origin
     || negb (indexOf allowedOrigins (optional_text origin) =? -1)%Z then
    pure (inr true)
  else
    console Warn ("CORS blocked for origin: " ++ optional_text origin) [] ;;
    pure (inl (PlainError "Not allowed by CORS")).

(** A space occurs in the text. *)
Fixpoint has_space (s : string) : bool :=
  match s with
  | EmptyString => false
  | String c rest => Ascii.eqb c " " || has_space rest
  end.

(** * Reference outcomes

    The runs the properties below compare the server with. *)

(** The text up to the first space. *)
Fixpoint up_to_space (s : string) : string :=
  match s with
  | EmptyString => EmptyString
  | String c rest => if Ascii.eqb c " " then EmptyString else String c (up_to_space rest)
  end.

(** The two rejections of the gate: a warning and a response; [next] does
    not run. *)
Definition unauthorized : M unit :=
  (Normal tt,
   [Console Warn "Authentication failed: Missing or invalid Authorization header." [];
    Respond 401 (ErrorBody "Unauthorized: Missing authorization header")]).

Definition forbidden : M unit :=
  (Normal tt,
   [Console Warn "Authentication failed: Invalid secret." [];
    Respond 403 (ErrorBody "Forbidden: Invalid secret")]).

Definition missingJsonData : JSError := PlainError "Missing jsonData field in request body.".

Definition destructureNull : JSError :=
  TypeError "Cannot destructure property 'userName' of 'payload'".

(** How far the checks of the handler let a request body go. *)
Inductive Decoded : Type :=
| BadJson (e : JSError)             (* [jsonData] absent, empty or not JSON *)
| NullPayload                       (* [jsonData] is the text [null] *)
| MissingFields (payload : JSValue) (* [userName] or [achievementName] falsy *)
| Unprintable (e : JSError)         (* a name whose conversion to text throws *)
| Valid (p : Payload) (user achievement : string).

Definition badJsonTrace (body : Body) (e : JSError) : list Event :=
  [Console Warn "Failed to parse jsonData:"
     [ArgString (error_message e); ArgString "Body:"; ArgBody body];
   Respond 400 (ErrorBody "Bad Request: Invalid or missing jsonData field.")].

Definition missingFieldsTrace (payload : JSValue) : list Event :=
  [Console Warn "Received invalid payload:" [ArgValue payload];
   Respond 400 (ErrorBody "Bad Request: Missing userName or achievementName")].

Definition notReadyTrace : list Event :=
  [Console Error "Discord client not ready, cannot send notification yet." [];
   Respond 503 (ErrorBody "Service Unavailable: Discord client not ready")].

Definition receivedTrace (u a : string) (uploadedFile : option UploadedFile) : list Event :=
  [Console Log ("Received achievement notification for " ++ u ++ " - " ++ a) [];
   match uploadedFile with
   | Some file =>
       Console Log ("Received file: " ++ optional_text (originalname file)
                    ++ ", size: " ++ decimal (size file)
                    ++ ", type: " ++ mimetype file) []
   | None => Console Log "No file uploaded with this request." []
   end].

(** [iconSource] as the fallback trusts it: a string that starts with
    [http://] or [https://]. *)
Definition trustedIcon (v : JSValue) : option string :=
  match v with
  | JSString url =>
      if startsWith url "http://" || startsWith url "https://" then Some url else None
  | _ => None
  end.

(** The name given to the attached file. *)
Definition assignedName (file : UploadedFile) (achievement : string) : string :=
  match originalname file with
  | Some original => if original =? "" then generatedName achievement else original
  | None => generatedName achievement
  end.

(** The embed of a notification, up to its two picture slots. *)
Definition messageEmbed (time : Z) (u a : string) (about : JSValue)
    (picture thumb : option string) : Embed :=
  {| color := Some "#00FF00";
     title := Some embedTitle;
     description := Some (embedDescription u a);
     timestamp := Some time;
     fields := if truthy about then [("Description", about)] else [];
     image := picture;
     thumbnail := thumb |}.

Definition quiet {A} (m : M A) : Prop := forallb is_console (trace m) = true.

Definition channelUnusable : ResponseBody :=
  ErrorBody "Internal Server Error: Could not find or use target Discord channel".

Definition sendFailed : ResponseBody :=
  ErrorBody "Internal Server Error: Failed to send Discord notification".

Definition delivered : ResponseBody := MessageBody "Notification sent successfully".

(** [console.error(`Error processing ... for ${userName}:`, error)] *)
Definition failureLog (u : string) (error : JSError) : Event :=
  Console Error ("Error processing notification or sending to Discord for " ++ u ++ ":")
          [ArgError error].

Section Outcomes.
Context {rt : JSRuntime}.
Variable EXPECTED_SECRET : string.
Variable TARGET_CHANNEL_ID : string.
Variable discordReady : bool.
Variable discord : Discord.

(** The gate lets a request through: both tests of the middleware fail. *)
Definition gate_passes (req : Request) : bool :=
  match authorization req with
  | Some h =>
      negb (header_missing_or_invalid (Some h))
      && negb (secret_differs EXPECTED_SECRET (providedSecret h))
  | None => false
  end.

Definition checkFields (payload : JSValue) : Decoded :=
  let p := payloadOf payload in
  if negb (truthy (userName p)) || negb (truthy (achievementName p)) then
    MissingFields payload
  else
    match ToString (userName p) with
    | inl e => Unprintable e
    | inr u =>
        match ToString (achievementName p) with
        | inl e => Unprintable e
        | inr a => Valid p u a
        end
    end.

Definition decode (body : Body) : Decoded :=
  match jsonData body with
  | None => BadJson missingJsonData
  | Some text =>
      if text =? "" then BadJson missingJsonData
      else
        match JSON_parse text with
        | inl e => BadJson e
        | inr JSNull | inr JSUndefined => NullPayload
        | inr payload => checkFields payload
        end
  end.

Definition successLog (u : string) : Event :=
  Console Log ("Successfully sent notification for " ++ u
               ++ " to Discord channel " ++ TARGET_CHANNEL_ID) [].

(** The run of the [try] block and its [catch], by what the chat
    library does. *)
Definition dispatchRun (p : Payload) (file : option UploadedFile) (u : string) : M unit :=
  match channels_fetch discord TARGET_CHANNEL_ID with
  | FetchRejected e =>
      (Normal tt,
       [ChannelsFetch TARGET_CHANNEL_ID; failureLog u e; Respond 500 sendFailed])
  | FetchResolved (Some TextChannel) =>
      match composeMessage discord p file with
      | (Normal (embed, files), t) =>
          match send_rejects discord embed files with
          | Some e =>
              (Normal tt,
               ChannelsFetch TARGET_CHANNEL_ID :: t
               ++ [ChannelSend embed files; failureLog u e; Respond 500 sendFailed])%list
          | None =>
              (Normal tt,
               ChannelsFetch TARGET_CHANNEL_ID :: t
               ++ [ChannelSend embed files; successLog u; Respond 200 delivered])%list
          end
      | (Throw e, t) =>
          (Normal tt,
           ChannelsFetch TARGET_CHANNEL_ID :: t
           ++ [failureLog u e; Respond 500 sendFailed])%list
      | (Return, t) => (Return, ChannelsFetch TARGET_CHANNEL_ID :: t)
      end
  | FetchResolved _ =>
      (Return, [ChannelsFetch TARGET_CHANNEL_ID; Respond 500 channelUnusable])
  end.

(** The run of the whole route, by the checks in the order the server
    makes them. *)
Definition routeRun (req : Request) : M unit :=
  if gate_passes req then
    match multipart req with
    | MulterError e => (Normal tt, [NextError e])
    | MulterParsed body file =>
        if discordReady then
          match decode body with
          | BadJson e => (Normal tt, badJsonTrace body e)
          | NullPayload => (Throw destructureNull, [])
          | MissingFields v => (Normal tt, missingFieldsTrace v)
          | Unprintable e => (Throw e, [])
          | Valid p u a =>
              call (fst (dispatchRun p file u),
                    receivedTrace u a file ++ trace (dispatchRun p file u))%list
          end
        else (Normal tt, notReadyTrace)
    end
  else if header_missing_or_invalid (authorization req) then unauthorized
  else forbidden.

(** The ways the dispatcher fails, with the error thrown if there is one. *)
Inductive DispatchFailure (p : Payload) (file : option UploadedFile)
  : option JSError -> Prop :=
| ChannelMissing :
    channels_fetch discord TARGET_CHANNEL_ID = FetchResolved None ->
    DispatchFailure p file None
| ChannelNotText :
    channels_fetch discord TARGET_CHANNEL_ID = FetchResolved (Some OtherChannel) ->
    DispatchFailure p file None
| FetchFails e :
    channels_fetch discord TARGET_CHANNEL_ID = FetchRejected e ->
    DispatchFailure p file (Some e)
| ComposeFails e :
    channels_fetch discord TARGET_CHANNEL_ID = FetchResolved (Some TextChannel) ->
    fst (composeMessage discord p file) = Throw e ->
    DispatchFailure p file (Some e)
| SendFails e embed files :
    channels_fetch discord TARGET_CHANNEL_ID = FetchResolved (Some TextChannel) ->
    fst (composeMessage discord p file) = Normal (embed, files) ->
    send_rejects discord embed files = Some e ->
    DispatchFailure p file (Some e).
End Outcomes.

(** The payloads the decoder turns away: [jsonData] absent, empty or not
    JSON, or a parsed value other than [null] without a truthy [userName]
    or [achievementName]. *)
Inductive BadPayload {rt : JSRuntime} (body : Body) : Prop :=
| JsonDataAbsent :
    jsonData body = None -> BadPayload body
| JsonDataEmpty :
    jsonData body = Some EmptyString -> BadPayload body
| JsonDataUnparseable text e :
    jsonData body = Some text -> JSON_parse text = inl e -> BadPayload body
| NamesMissing text payload :
    jsonData body = Some text -> JSON_parse text = inr payload ->
    payload <> JSNull -> payload <> JSUndefined ->
    truthy (get_prop payload "userName") = false
    \/ truthy (get_prop payload "achievementName") = false ->
    BadPayload body.

(** * Example data *)

Definition quote : string := String (ascii_of_nat 34) EmptyString.

(** [{ "key": "value", ... }] for string values, as [JSON.stringify]
    writes it. *)
Fixpoint jsonMembers (members : list (string * string)) : string :=
  match members with
  | [] => EmptyString
  | [(k, v)] => quote ++ k ++ quote ++ ":" ++ quote ++ v ++ quote
  | (k, v) :: rest =>
      quote ++ k ++ quote ++ ":" ++ quote ++ v ++ quote ++ "," ++ jsonMembers rest
  end.

Definition jsonText (members : list (string * string)) : string :=
  "{" ++ jsonMembers members ++ "}".

Definition jsonObject (members : list (string * string)) : JSValue :=
  JSObject (map (fun kv => (fst kv, JSString (snd kv))) members).

Definition alice : list (string * string) :=
  [("userName", "Alice"); ("achievementName", "Dragon Slayer")].

Definition aliceWithIcon : list (string * string) :=
  [("userName", "Alice"); ("achievementName", "Dragon Slayer");
   ("achievementDescription", "Slew the dragon of the north");
   ("iconSource", "https://example.com/icon.png")].

Definition aliceWithFtpIcon : list (string * string) :=
  [("userName", "Alice"); ("achievementName", "Dragon Slayer");
   ("iconSource", "ftp://evil")].

Definition anonymous : list (string * string) :=
  [("achievementName", "Dragon Slayer")].

Definition exampleTexts : list (list (string * string)) :=
  [alice; aliceWithIcon; aliceWithFtpIcon; anonymous].

(** A runtime for the examples: [JSON.parse] on the example texts (every
    other text is refused), and numbers printed as JavaScript prints the
    whole ones. *)
Definition exampleRuntime : JSRuntime :=
  {| JSON_parse := fun text =>
       if text =? "null" then inr JSNull
       else
         match find (fun members => text =? jsonText members) exampleTexts with
         | Some members => inr (jsonObject members)
         | None => inl (SyntaxError "Unexpected token")
         end;
     Number_toString := fun d =>
       match d with
       | S754_zero _ => "0"
       | S754_infinity false => "Infinity"
       | S754_infinity true => "-Infinity"
       | S754_nan => "NaN"
       | S754_finite negative m e =>
           (if negative then "-" else EmptyString)
           ++ decimal (Z.to_N (Z.shiftl (Zpos m) e))
       end |}.

Definition exampleSecret : string := "s3cret".
Definition exampleChannel : string := "1357924680".

(** A chat library that accepts everything. *)
Definition exampleDiscord : Discord :=
  {| channels_fetch := fun _ => FetchResolved (Some TextChannel);
     builder_throws := fun _ => None;
     send_rejects := fun _ _ => None;
     now := 1700000000000 |}.

(** The target channel was deleted. *)
Definition deletedChannelDiscord : Discord :=
  {| channels_fetch := fun _ => FetchResolved None;
     builder_throws := fun _ => None;
     send_rejects := fun _ _ => None;
     now := 1700000000000 |}.

Definition trophy : UploadedFile :=
  {| originalname := Some "trophy.png";
     buffer := [Byte.x89; Byte.x50; Byte.x4e; Byte.x47];
     size := 2048;
     mimetype := "image/png" |}.

Definition exampleRequest (header : option string) (members : list (string * string))
    (file : option UploadedFile) : Request :=
  {| authorization := header;
     multipart := MulterParsed {| jsonData := Some (jsonText members) |} file |}.

Definition exampleRoute (ready : bool) (discord : Discord) (req : Request) : M unit :=
  route (rt := exampleRuntime) exampleSecret exampleChannel ready discord req.

(** The chat service refuses the message. *)
Definition refusingDiscord : Discord :=
  {| channels_fetch := fun _ => FetchResolved (Some TextChannel);
     builder_throws := fun _ => None;
     send_rejects := fun _ _ => Some (LibraryError "Missing Permissions");
     now := 1700000000000 |}.

Definition bearer : option string := Some "Bearer s3cret".

(** The message of Alice's notification with the picture slots given. *)
Definition aliceEmbed (about : JSValue) (picture thumb : option string) : Embed :=
  messageEmbed 1700000000000 "Alice" "Dragon Slayer" about picture thumb.

Definition aboutDragon : JSValue := JSString "Slew the dragon of the north".

Definition trophyAttachment : Attachment :=
  {| attachment := buffer trophy; name := "trophy.png" |}.

(** A payload whose [iconSource] is the number 42, and a runtime that
    parses its text as well. *)
Definition numberIconText : string :=
  "{" ++ jsonMembers alice ++ "," ++ quote ++ "iconSource" ++ quote ++ ":42}".

Definition fortyTwo : JSValue := JSNumber (S754_finite false 5910974510923776 (-47)).

Definition numberIconPayload : JSValue :=
  JSObject [("userName", JSString "Alice"); ("achievementName", JSString "Dragon Slayer");
            ("iconSource", fortyTwo)].

Definition numberIconRuntime : JSRuntime :=
  {| JSON_parse := fun text =>
       if text =? numberIconText then inr numberIconPayload
       else JSON_parse (JSRuntime := exampleRuntime) text;
     Number_toString := Number_toString (JSRuntime := exampleRuntime) |}.

Definition numberIconRequest : Request :=
  {| authorization := bearer;
     multipart := MulterParsed {| jsonData := Some numberIconText |} None |}.

Definition nullRequest : Request :=
  {| authorization := bearer;
     multipart := MulterParsed {| jsonData := Some "null" |} None |}.

Definition exampleEnv : Env := fun variable =>
  if variable =? "FOUNDRY_SECRET" then Some exampleSecret
  else if variable =? "DISCORD_CHANNEL_ID" then Some exampleChannel
  else if variable =? "DISCORD_BOT_TOKEN" then Some "bot-token"
  else None.

Definition exampleConfiguration : Configuration :=
  {| configPort := PortNumber 3000; configSecret := exampleSecret;
     configChannel := exampleChannel; configToken := "bot-token" |}.

Definition readyProcess : Process :=
  {| readyFlag := true; readyListener := false; exited := None |}.

Definition exampleServe (st : Process) (inputs : list Input) : Process * list Event :=
  serve (rt := exampleRuntime) exampleSecret exampleChannel st inputs.

(** A payload whose [userName] is an object with a [toString] property
    of its own, and a runtime that parses its text as well. *)
Definition objectNameText : string :=
  "{" ++ quote ++ "userName" ++ quote ++ ":{" ++ jsonMembers [("toString", "x")] ++ "},"
  ++ jsonMembers [("achievementName", "Dragon Slayer")] ++ "}".

Definition objectNamePayload : JSValue :=
  JSObject [("userName", JSObject [("toString", JSString "x")]);
            ("achievementName", JSString "Dragon Slayer")].

Definition objectNameRuntime : JSRuntime :=
  {| JSON_parse := fun text =>
       if text =? objectNameText then inr objectNamePayload
       else JSON_parse (JSRuntime := exampleRuntime) text;
     Number_toString := Number_toString (JSRuntime := exampleRuntime) |}.

Definition objectNameRequest : Request :=
  {| authorization := bearer;
     multipart := MulterParsed {| jsonData := Some objectNameText |} None |}.

Definition notPrimitive : JSError := TypeError "Cannot convert object to primitive value".

(** * Properties *)

(** ** The effect combinators *)

Lemma bind_pure {A B} (a : A) (k : A -> M B) : bind (pure a) k = k a.
Proof. unfold bind, pure. destruct (k a); reflexivity. Qed.

Lemma bind_throw {A B} (e : JSError) (k : A -> M B) : bind (throw e) k = throw e.
Proof. reflexivity. Qed.

Lemma bind_return {A B} (k : A -> M B) : bind return_ k = return_.
Proof. reflexivity. Qed.

Lemma bind_emit {B} (ev : Event) (k : unit -> M B) :
  bind (emit ev) k = (fst (k tt), ev :: snd (k tt)).
Proof. unfold bind, emit. destruct (k tt); reflexivity. Qed.

Lemma call_idempotent (m : M unit) : call (call m) = call m.
Proof. destruct m as [[[]|e|] t]; reflexivity. Qed.

Lemma call_normal (t : list Event) : call (Normal tt, t) = (Normal tt, t).
Proof. reflexivity. Qed.

Ltac eff :=
  cbn [bind pure throw return_ emit lift try_catch call console respond
       fst snd app trace].

(** ** Strings *)

Lemma startsWith_iff (s p : string) :
  startsWith s p = true <-> exists rest, s = p ++ rest.
Proof.
  unfold startsWith. revert s.
  induction p as [|c p IH]; intros s; cbn.
  - split; [intros _; exists s; reflexivity | destruct s; reflexivity].
  - destruct s as [|c' s]; cbn.
    + split; [discriminate | intros [rest H]; discriminate].
    + destruct (Ascii.ascii_dec c c') as [->|Hne].
      * rewrite IH. split; intros [rest H]; exists rest; congruence.
      * split; [discriminate | intros [rest H]; congruence].
Qed.

Lemma split_nonempty (sep : ascii) (s : string) : split sep s <> [].
Proof.
  induction s as [|c s IH]; cbn; [discriminate|].
  destruct (Ascii.eqb c sep); [discriminate|].
  destruct (split sep s); [contradiction | discriminate].
Qed.

Lemma split_head (s : string) : hd EmptyString (split " " s) = up_to_space s.
Proof.
  induction s as [|c s IH]; cbn; [reflexivity|].
  destruct (Ascii.eqb c " "); [reflexivity|].
  pose proof (split_nonempty " " s) as Hne.
  destruct (split " " s) as [|seg segs]; [contradiction|].
  cbn in *. congruence.
Qed.

(** What [authHeader.split(' ')[1]] is on a header that starts with
    ["Bearer "]: the text between that prefix and the next space. *)
Lemma providedSecret_bearer (rest : string) :
  providedSecret ("Bearer " ++ rest) = Some (up_to_space rest).
Proof.
  unfold providedSecret. cbn.
  pose proof (split_nonempty " " rest) as Hne.
  pose proof (split_head rest) as Hhd.
  destruct (split " " rest) as [|seg segs]; [contradiction|].
  cbn in *. congruence.
Qed.

Lemma up_to_space_stop (token extra : string) :
  up_to_space token = token ->
  up_to_space (token ++ " " ++ extra) = token.
Proof.
  induction token as [|c token IH]; cbn; [reflexivity|].
  destruct (Ascii.eqb c " "); [discriminate|].
  intros H. injection H as H. f_equal. apply IH, H.
Qed.

(** ** The credential gate *)

Section Gate.
Variable EXPECTED_SECRET : string.

Lemma authenticateRequest_passes (req : Request) (next : M unit) :
  gate_passes EXPECTED_SECRET req = true ->
  authenticateRequest EXPECTED_SECRET req next = call next.
Proof.
  unfold gate_passes, authenticateRequest.
  destruct (authorization req) as [h|]; [|discriminate].
  intros H. apply andb_prop in H as [H1 H2].
  apply negb_true_iff in H1, H2. rewrite H1, H2. eff.
  destruct next as [c t]. reflexivity.
Qed.

Lemma authenticateRequest_rejects (req : Request) (next : M unit) :
  gate_passes EXPECTED_SECRET req = false ->
  (authenticateRequest EXPECTED_SECRET req next = unauthorized
   /\ header_missing_or_invalid (authorization req) = true)
  \/ (authenticateRequest EXPECTED_SECRET req next = forbidden
      /\ header_missing_or_invalid (authorization req) = false).
Proof.
  unfold gate_passes, authenticateRequest.
  destruct (authorization req) as [h|]; [|intros _; left; split; reflexivity].
  destruct (header_missing_or_invalid (Some h)) eqn:H1; cbn [negb andb].
  - intros _. left. split; reflexivity.
  - intros H2. apply negb_false_iff in H2. rewrite H2.
    right. split; reflexivity.
Qed.

Lemma header_invalid_iff (h : string) :
  header_missing_or_invalid (Some h) = false <-> exists rest, h = "Bearer " ++ rest.
Proof.
  rewrite <- startsWith_iff. cbn [header_missing_or_invalid].
  destruct (startsWith h "Bearer ") eqn:Hp; cbn [negb].
  - rewrite orb_false_r. destruct h; [discriminate Hp|]. cbn. tauto.
  - rewrite orb_true_r. split; discriminate.
Qed.

(** C6, as the code has it.  A missing Authorization header, or one that
    does not start with ["Bearer "], is answered 401; a header that starts
    with ["Bearer "] whose token, the text between the prefix and the next
    space (or the end), differs from the secret is answered 403; the
    request goes on to [next] exactly when that token is the secret,
    whatever follows it after a space.  The three cases exclude each
    other and the two rejections are different responses, neither of
    which runs [next]. *)
Theorem credential_gate_outcomes (req : Request) (next : M unit) :
  (((forall rest, authorization req <> Some ("Bearer " ++ rest))
    /\ authenticateRequest EXPECTED_SECRET req next = unauthorized)
   \/ (exists rest, authorization req = Some ("Bearer " ++ rest)
         /\ up_to_space rest <> EXPECTED_SECRET
         /\ authenticateRequest EXPECTED_SECRET req next = forbidden)
   \/ (exists rest, authorization req = Some ("Bearer " ++ rest)
         /\ up_to_space rest = EXPECTED_SECRET
         /\ authenticateRequest EXPECTED_SECRET req next = call next))
  /\ responses (trace unauthorized)
     = [(401%Z, ErrorBody "Unauthorized: Missing authorization header")]
  /\ responses (trace forbidden) = [(403%Z, ErrorBody "Forbidden: Invalid secret")].
Proof.
  split; [|split; reflexivity].
  destruct (gate_passes EXPECTED_SECRET req) eqn:Hg.
  - right. right.
    pose proof (authenticateRequest_passes req next Hg) as Hrun.
    unfold gate_passes in Hg.
    destruct (authorization req) as [h|] eqn:Hh; [|discriminate].
    apply andb_prop in Hg as [H1 H2].
    apply negb_true_iff in H1, H2.
    apply header_invalid_iff in H1 as [rest ->].
    rewrite providedSecret_bearer in H2. cbn in H2.
    apply negb_false_iff, String.eqb_eq in H2.
    exists rest. auto.
  - destruct (authenticateRequest_rejects req next Hg) as [[Hrun Hbad]|[Hrun Hok]].
    + left. split; [|exact Hrun].
      intros rest Hh. rewrite Hh in Hbad.
      assert (header_missing_or_invalid (Some ("Bearer " ++ rest)) = false) as Hc
        by (apply header_invalid_iff; eauto).
      congruence.
    + right. left.
      unfold gate_passes in Hg.
      destruct (authorization req) as [h|] eqn:Hh; [|discriminate Hok].
      rewrite Hok in Hg. cbn [negb andb] in Hg.
      apply negb_false_iff in Hg.
      apply header_invalid_iff in Hok as [rest ->].
      rewrite providedSecret_bearer in Hg. cbn in Hg.
      apply negb_true_iff, String.eqb_neq in Hg.
      exists rest. auto.
Qed.

Lemma gate_by_second_segment (req : Request) (h : string) :
  authorization req = Some h ->
  startsWith h "Bearer " = true ->
  gate_passes EXPECTED_SECRET req = true
  <-> nth_error (split " " h) 1 = Some EXPECTED_SECRET.
Proof.
  intros Hh Hp. unfold gate_passes. rewrite Hh.
  apply startsWith_iff in Hp as Hrest.
  assert (header_missing_or_invalid (Some h) = false) as ->
    by (apply header_invalid_iff; exact Hrest).
  unfold providedSecret, secret_differs. cbn [negb andb].
  destruct (nth_error (split " " h) 1) as [segment|]; cbn [negb].
  - rewrite negb_involutive, String.eqb_eq. split; congruence.
  - split; discriminate.
Qed.

Lemma forbidden_by_second_segment (req : Request) (next : M unit) (h : string) :
  authorization req = Some h ->
  startsWith h "Bearer " = true ->
  nth_error (split " " h) 1 <> Some EXPECTED_SECRET ->
  authenticateRequest EXPECTED_SECRET req next = forbidden.
Proof.
  intros Hh Hp Hseg.
  assert (gate_passes EXPECTED_SECRET req = false) as Hg.
  { destruct (gate_passes EXPECTED_SECRET req) eqn:Hg; [|reflexivity].
    apply (gate_by_second_segment req h Hh Hp) in Hg. contradiction. }
  destruct (authenticateRequest_rejects req next Hg) as [[_ Hbad]|[H _]]; [|exact H].
  rewrite Hh in Hbad. apply startsWith_iff in Hp.
  assert (header_missing_or_invalid (Some h) = false) as Hok
    by (apply header_invalid_iff; exact Hp).
  congruence.
Qed.

(** C9. On a header that starts with ["Bearer "] the gate compares the
    second space-separated segment with the secret and nothing else: the
    request goes on to [next] when that segment is the secret, whatever
    follows it, and is answered 403 when it is not, whatever follows it;
    two such headers with the same second segment get the same outcome. *)
Theorem second_segment_decides (req : Request) (next : M unit) (h : string) :
  authorization req = Some h ->
  startsWith h "Bearer " = true ->
  (nth_error (split " " h) 1 = Some EXPECTED_SECRET ->
   authenticateRequest EXPECTED_SECRET req next = call next)
  /\ (nth_error (split " " h) 1 <> Some EXPECTED_SECRET ->
      authenticateRequest EXPECTED_SECRET req next = forbidden)
  /\ (forall req' h',
        authorization req' = Some h' ->
        startsWith h' "Bearer " = true ->
        nth_error (split " " h') 1 = nth_error (split " " h) 1 ->
        authenticateRequest EXPECTED_SECRET req' next
        = authenticateRequest EXPECTED_SECRET req next).
Proof.
  intros Hh Hp.
  assert (forall r x, authorization r = Some x -> startsWith x "Bearer " = true ->
            nth_error (split " " x) 1 = Some EXPECTED_SECRET ->
            authenticateRequest EXPECTED_SECRET r next = call next) as Hpass.
  { intros r x Hr Hx Hseg. apply authenticateRequest_passes.
    apply (gate_by_second_segment r x Hr Hx). exact Hseg. }
  split; [apply Hpass; assumption|].
  split; [apply forbidden_by_second_segment; assumption|].
  intros req' h' Hh' Hp' Hsame.
  assert (nth_error (split " " h) 1 = Some EXPECTED_SECRET
          \/ nth_error (split " " h) 1 <> Some EXPECTED_SECRET) as [Heq|Hne].
  { destruct (gate_passes EXPECTED_SECRET req) eqn:Hg.
    - left. apply (gate_by_second_segment req h Hh Hp). exact Hg.
    - right. intros Heq. apply (gate_by_second_segment req h Hh Hp) in Heq.
      congruence. }
  - rewrite (Hpass req h Hh Hp Heq), (Hpass req' h' Hh' Hp'); congruence.
  - rewrite (forbidden_by_second_segment req next h Hh Hp Hne),
      (forbidden_by_second_segment req' next h' Hh' Hp'); congruence.
Qed.

(** Content after the secret does not matter. *)
Lemma trailing_content_accepted (req : Request) (next : M unit) (extra : string) :
  up_to_space EXPECTED_SECRET = EXPECTED_SECRET ->
  authorization req = Some ("Bearer " ++ EXPECTED_SECRET ++ " " ++ extra) ->
  authenticateRequest EXPECTED_SECRET req next = call next.
Proof.
  intros Hns Hh. apply authenticateRequest_passes.
  unfold gate_passes. rewrite Hh.
  assert (header_missing_or_invalid
            (Some ("Bearer " ++ EXPECTED_SECRET ++ " " ++ extra)) = false) as ->
    by (apply header_invalid_iff; eauto).
  rewrite providedSecret_bearer, up_to_space_stop by exact Hns.
  cbn. rewrite String.eqb_refl. reflexivity.
Qed.
End Gate.

(** ** The payload decoder *)

Section Decoder.
Context {rt : JSRuntime}.

Variable TARGET_CHANNEL_ID : string.
Variable discord : Discord.

Lemma notifyAchievement_not_ready body file :
  notifyAchievement TARGET_CHANNEL_ID false discord body file = (Return, notReadyTrace).
Proof. reflexivity. Qed.

Lemma checkFields_run payload file :
  payload <> JSNull -> payload <> JSUndefined ->
  (p <- destructure payload ;;
   (if negb (truthy (userName p)) || negb (truthy (achievementName p)) then
      console Warn "Received invalid payload:" [ArgValue payload] ;;
      respond 400 (ErrorBody "Bad Request: Missing userName or achievementName") ;;
      return_
    else pure tt) ;;
   u <- lift (ToString (userName p)) ;;
   a <- lift (ToString (achievementName p)) ;;
   console Log ("Received achievement notification for " ++ u ++ " - " ++ a) [] ;;
   (match file with
    | Some f =>
        console Log ("Received file: " ++ optional_text (originalname f)
                     ++ ", size: " ++ decimal (size f)
                     ++ ", type: " ++ mimetype f) []
    | None => console Log "No file uploaded with this request." []
    end) ;;
   dispatch TARGET_CHANNEL_ID discord p file)
  = match checkFields payload with
    | Valid p u a =>
        (fst (dispatch TARGET_CHANNEL_ID discord p file),
         receivedTrace u a file ++ trace (dispatch TARGET_CHANNEL_ID discord p file))%list
    | MissingFields v => (Return, missingFieldsTrace v)
    | Unprintable e => (Throw e, [])
    | BadJson e => (Return, [])
    | NullPayload => (Throw destructureNull, [])
    end.
Proof.
  intros Hnull Hundef. unfold checkFields.
  assert (destructure payload = pure (payloadOf payload)) as ->
    by (destruct payload; congruence || reflexivity).
  rewrite bind_pure.
  destruct (negb (truthy (userName (payloadOf payload)))
            || negb (truthy (achievementName (payloadOf payload)))); [reflexivity|].
  rewrite bind_pure.
  destruct (ToString (userName (payloadOf payload))) as [e|u]; [reflexivity|].
  cbn [lift]. rewrite bind_pure.
  destruct (ToString (achievementName (payloadOf payload))) as [e|a]; [reflexivity|].
  cbn [lift]. rewrite bind_pure.
  destruct (dispatch TARGET_CHANNEL_ID discord (payloadOf payload) file) as [c t].
  destruct file; destruct c; reflexivity.
Qed.

(** The handler, once the chat client is ready, by the cases of the
    decoder. *)
Lemma notifyAchievement_ready body file :
  notifyAchievement TARGET_CHANNEL_ID true discord body file
  = match decode body with
    | BadJson e => (Return, badJsonTrace body e)
    | NullPayload => (Throw destructureNull, [])
    | MissingFields v => (Return, missingFieldsTrace v)
    | Unprintable e => (Throw e, [])
    | Valid p u a =>
        (fst (dispatch TARGET_CHANNEL_ID discord p file),
         receivedTrace u a file ++ trace (dispatch TARGET_CHANNEL_ID discord p file))%list
    end.
Proof.
  unfold notifyAchievement, decode, parsePayload.
  cbn [negb]. rewrite bind_pure.
  destruct (jsonData body) as [text|]; [|reflexivity].
  destruct (text =? ""); [reflexivity|].
  destruct (JSON_parse text) as [e|payload]; [reflexivity|].
  cbn [lift try_catch pure]. rewrite bind_pure.
  destruct payload;
    try reflexivity;
    (rewrite checkFields_run by discriminate;
     destruct (checkFields _) eqn:Hc; try reflexivity;
     unfold checkFields in Hc;
     repeat match type of Hc with
            | (if ?b then _ else _) = _ => destruct b
            | match ?x with _ => _ end = _ => destruct x
            end; discriminate).
Qed.
End Decoder.

(** ** The message *)

Section Message.
Context {rt : JSRuntime}.
Variable discord : Discord.

Lemma builder_step {A B} (call : BuilderCall) (x : A) (k : A -> M B) :
  bind (bind (validated discord call) (fun _ => pure x)) k
  = match builder_throws discord call with
    | Some e => throw e
    | None => k x
    end.
Proof.
  unfold validated. destruct (builder_throws discord call); [reflexivity|].
  eff. destruct (k x); reflexivity.
Qed.

Lemma lift_step {A B} (r : JSError + A) (k : A -> M B) :
  bind (lift r) k = match r with inl e => throw e | inr a => k a end.
Proof. destruct r; [reflexivity | apply bind_pure]. Qed.

Lemma builder_last {A} (call : BuilderCall) (x : A) :
  bind (validated discord call) (fun _ => pure x)
  = match builder_throws discord call with
    | Some e => throw e
    | None => pure x
    end.
Proof. unfold validated. destruct (builder_throws discord call); reflexivity. Qed.

Ltac builder :=
  (rewrite builder_step || rewrite builder_last);
  match goal with
  | |- context [match builder_throws ?d ?c with _ => _ end] =>
      destruct (builder_throws d c); [cbn; intros; discriminate|]
  end;
  cbn [color title description timestamp fields image thumbnail emptyEmbed
       attachment name app].

Lemma describe_result p embed :
  fst (describe discord p) = Normal embed ->
  exists u a,
    ToString (userName p) = inr u /\ ToString (achievementName p) = inr a /\
    embed = messageEmbed (now discord) u a (achievementDescription p) None None.
Proof.
  unfold describe.
  unfold setColor. builder.
  unfold setTitle. builder.
  rewrite lift_step. destruct (ToString (userName p)) as [e|u]; [discriminate|].
  rewrite lift_step. destruct (ToString (achievementName p)) as [e|a]; [discriminate|].
  unfold setDescription. builder.
  unfold setTimestamp. builder.
  unfold messageEmbed.
  destruct (truthy (achievementDescription p)).
  - unfold addFields. builder.
    cbn. intros H. injection H as <-. eauto.
  - cbn. intros H. injection H as <-. eauto.
Qed.

Lemma value_startsWith_string v prefix b :
  fst (value_startsWith v prefix) = Normal b ->
  exists url, v = JSString url /\ b = startsWith url prefix.
Proof.
  destruct v; cbn; intros H; try discriminate.
  injection H as <-. eauto.
Qed.

Lemma iconSourceUsable_result p b :
  fst (iconSourceUsable p) = Normal b ->
  b = match trustedIcon (iconSource p) with Some _ => true | None => false end
  /\ (b = true -> exists url, iconSource p = JSString url).
Proof.
  unfold iconSourceUsable, trustedIcon.
  destruct (iconSource p) as [| |flag|d|url|items|props]; cbn [truthy];
    try (cbn; intros H; injection H as <-; split; [reflexivity|discriminate]);
    try (cbn; discriminate).
  - destruct flag; cbn; [discriminate|].
    intros H; injection H as <-; split; [reflexivity|discriminate].
  - destruct d; cbn; try discriminate;
      (intros H; injection H as <-; split; [reflexivity|discriminate]).
  - destruct (url =? "") eqn:Hempty; cbn [negb].
    + apply String.eqb_eq in Hempty as ->. cbn.
      intros H; injection H as <-; split; [reflexivity|discriminate].
    + cbn [value_startsWith]. rewrite bind_pure.
      destruct (startsWith url "http://"); cbn.
      * intros H; injection H as <-. eauto.
      * intros H; injection H as <-.
        destruct (startsWith url "https://"); eauto.
Qed.

Lemma illustrate_result base p file a embed files :
  ToString (achievementName p) = inr a ->
  image base = None -> thumbnail base = None ->
  fst (illustrate discord base p file) = Normal (embed, files) ->
  match file with
  | Some f =>
      image embed = Some ("attachment://" ++ assignedName f a)
      /\ thumbnail embed = None
      /\ files = [{| attachment := buffer f; name := assignedName f a |}]
  | None =>
      image embed = None
      /\ thumbnail embed = trustedIcon (iconSource p)
      /\ files = []
  end
  /\ color embed = color base /\ title embed = title base
  /\ description embed = description base /\ timestamp embed = timestamp base
  /\ fields embed = fields base.
Proof.
  intros Ha Hi Ht. unfold illustrate.
  destruct file as [f|].
  - assert (attachmentName f p = pure (assignedName f a)) as ->.
    { unfold attachmentName, assignedName.
      destruct (originalname f) as [original|];
        [destruct (original =? ""); [|reflexivity]|];
        rewrite Ha; reflexivity. }
    rewrite bind_pure.
    unfold newAttachment. builder.
    unfold setImage. builder.
    cbn. intros H. injection H as <- <-. cbn. auto 10.
  - destruct (iconSourceUsable p) as [[usable|e|] t] eqn:Hu; cbn [bind]; try discriminate.
    assert (fst (iconSourceUsable p) = Normal usable) as Hres by (rewrite Hu; reflexivity).
    apply iconSourceUsable_result in Hres as [Hb Hstr].
    destruct usable.
    + destruct (Hstr eq_refl) as [url Hurl]. rewrite Hurl in *.
      destruct (trustedIcon (JSString url)) as [trusted|] eqn:Htrust; [|discriminate].
      assert (trusted = url) as ->.
      { cbn in Htrust. destruct (_ || _) in Htrust; congruence. }
      destruct (builder_throws discord (SetThumbnail url)) eqn:Hb'.
      * unfold setThumbnail, validated. rewrite Hb'. cbn. discriminate.
      * unfold setThumbnail, validated. rewrite Hb'. cbn.
        intros H. injection H as <- <-. cbn. auto 10.
    + destruct (trustedIcon (iconSource p)); [discriminate|].
      cbn. intros H. injection H as <- <-. auto 10.
Qed.

Lemma composeMessage_result p file embed files :
  fst (composeMessage discord p file) = Normal (embed, files) ->
  exists u a,
    ToString (userName p) = inr u /\ ToString (achievementName p) = inr a /\
    match file with
    | Some f =>
        embed = messageEmbed (now discord) u a (achievementDescription p)
                  (Some ("attachment://" ++ assignedName f a)) None
        /\ files = [{| attachment := buffer f; name := assignedName f a |}]
    | None =>
        embed = messageEmbed (now discord) u a (achievementDescription p)
                  None (trustedIcon (iconSource p))
        /\ files = []
    end.
Proof.
  unfold composeMessage.
  destruct (describe discord p) as [[base|e|] t] eqn:Hd; cbn [bind]; try discriminate.
  assert (fst (describe discord p) = Normal base) as Hbase by (rewrite Hd; reflexivity).
  apply describe_result in Hbase as (u & a & Hu & Ha & ->).
  destruct (illustrate discord _ p file) as [c t'] eqn:Hill. cbn [fst].
  intros ->.
  assert (fst (illustrate discord
                 (messageEmbed (now discord) u a (achievementDescription p) None None)
                 p file) = Normal (embed, files)) as Hres by (rewrite Hill; reflexivity).
  apply (illustrate_result _ _ _ a) in Hres; [|exact Ha|reflexivity|reflexivity].
  exists u, a. split; [exact Hu|]. split; [exact Ha|].
  destruct embed as [c0 t0 d0 ts0 f0 i0 th0]. cbn in Hres.
  destruct file as [f|];
    destruct Hres as ((-> & -> & ->) & -> & -> & -> & -> & ->); split; reflexivity.
Qed.

(** When the library accepts every builder call the message is composed:
    with an uploaded file whatever [iconSource] is, and without one when
    [iconSource] is falsy (absent, [null], [false], [0], empty) or a
    string. *)
Lemma composeMessage_completes p file u a :
  (forall call, builder_throws discord call = None) ->
  ToString (userName p) = inr u ->
  ToString (achievementName p) = inr a ->
  (file = None ->
   truthy (iconSource p) = false \/ exists url, iconSource p = JSString url) ->
  exists message, fst (composeMessage discord p file) = Normal message.
Proof.
  intros Hok Hu Ha Hicon.
  unfold composeMessage, describe, illustrate, attachmentName, iconSourceUsable,
    setColor, setTitle, setDescription, setTimestamp, addFields, setImage,
    setThumbnail, newAttachment, validated.
  rewrite Hu, Ha.
  repeat (rewrite Hok; cbn [bind pure lift fst snd app]).
  destruct (truthy (achievementDescription p));
    repeat (rewrite Hok; cbn [bind pure lift fst snd app]).
  all: destruct file as [f|].
  all: try (destruct (originalname f) as [original|];
            [destruct (original =? "")|];
            repeat (rewrite ?Hok; cbn [bind pure lift fst snd app name]);
            eexists; reflexivity).
  all: destruct (Hicon eq_refl) as [Hi|[url Hi]]; rewrite Hi;
    cbn [truthy value_startsWith bind pure fst snd app];
    try (eexists; reflexivity).
  all: destruct (url =? ""); cbn [negb bind pure fst snd app];
    try (eexists; reflexivity).
  all: destruct (startsWith url "http://"); cbn [bind pure fst snd app console emit];
    repeat (rewrite ?Hok; cbn [bind pure lift fst snd app]);
    try (eexists; reflexivity).
  all: destruct (startsWith url "https://"); cbn [bind pure fst snd app console emit];
    repeat (rewrite ?Hok; cbn [bind pure lift fst snd app]);
    eexists; reflexivity.
Qed.

Lemma composeMessage_accepted p file u a :
  (forall call, builder_throws discord call = None) ->
  ToString (userName p) = inr u ->
  ToString (achievementName p) = inr a ->
  (file = None ->
   truthy (iconSource p) = false \/ exists url, iconSource p = JSString url) ->
  fst (composeMessage discord p file)
  = Normal
      match file with
      | Some f =>
          (messageEmbed (now discord) u a (achievementDescription p)
             (Some ("attachment://" ++ assignedName f a)) None,
           [{| attachment := buffer f; name := assignedName f a |}])
      | None =>
          (messageEmbed (now discord) u a (achievementDescription p)
             None (trustedIcon (iconSource p)),
           [])
      end.
Proof.
  intros Hok Hu Ha Hicon.
  destruct (composeMessage_completes p file u a Hok Hu Ha Hicon) as [[embed files] Hrun].
  rewrite Hrun.
  apply composeMessage_result in Hrun as (u' & a' & Hu' & Ha' & Hres).
  rewrite Hu in Hu'. injection Hu' as <-.
  rewrite Ha in Ha'. injection Ha' as <-.
  destruct file; destruct Hres as [-> ->]; reflexivity.
Qed.
End Message.

(** ** Runs that only write to the console *)

Lemma quiet_pure {A} (a : A) : quiet (pure a).
Proof. reflexivity. Qed.

Lemma quiet_throw {A} (e : JSError) : quiet (@throw Event A e).
Proof. reflexivity. Qed.

Lemma quiet_lift {A} (r : JSError + A) : quiet (lift r).
Proof. destruct r; reflexivity. Qed.

Lemma quiet_console level text rest : quiet (console level text rest).
Proof. reflexivity. Qed.

Lemma quiet_validated discord call : quiet (validated discord call).
Proof. unfold validated. destruct (builder_throws discord call); reflexivity. Qed.

Lemma quiet_bind {A B} (m : M A) (k : A -> M B) :
  quiet m -> (forall a, quiet (k a)) -> quiet (bind m k).
Proof.
  unfold quiet, trace, bind. destruct m as [[a|e|] t]; cbn [snd]; intros Hm Hk; auto.
  specialize (Hk a). destruct (k a) as [c t']. cbn [snd] in *.
  rewrite forallb_app, Hm, Hk. reflexivity.
Qed.

Lemma quiet_value_startsWith v prefix : quiet (value_startsWith v prefix).
Proof. destruct v; reflexivity. Qed.

Create HintDb quiet.
#[local] Hint Resolve quiet_pure quiet_throw quiet_lift quiet_console quiet_validated
  quiet_value_startsWith : quiet.

Ltac quiet_steps :=
  repeat first
    [ apply quiet_bind; [|intros ?]
    | progress auto with quiet
    | match goal with
      | |- quiet (if ?b then _ else _) => destruct b
      | |- quiet (match ?x with _ => _ end) => destruct x
      end ].

Section QuietMessage.
Context {rt : JSRuntime}.
Variable discord : Discord.

(** Composing a message calls neither the chat service nor the
    response. *)
Lemma composeMessage_quiet p file : quiet (composeMessage discord p file).
Proof.
  unfold composeMessage, describe, illustrate, attachmentName, iconSourceUsable,
    setColor, setTitle, setDescription, setTimestamp, addFields, setImage,
    setThumbnail, newAttachment.
  quiet_steps.
Qed.
End QuietMessage.

Lemma quiet_sends (t : list Event) : forallb is_console t = true -> sends t = [].
Proof.
  induction t as [|ev t IH]; [reflexivity|].
  destruct ev; cbn; try discriminate. exact IH.
Qed.

Lemma quiet_responses (t : list Event) : forallb is_console t = true -> responses t = [].
Proof.
  induction t as [|ev t IH]; [reflexivity|].
  destruct ev; cbn; try discriminate. exact IH.
Qed.

Lemma quiet_no_chat (t : list Event) :
  forallb is_console t = true -> contacts_chat t = false.
Proof.
  induction t as [|ev t IH]; [reflexivity|].
  destruct ev; cbn; try discriminate. exact IH.
Qed.

Lemma sends_app (t t' : list Event) : sends (t ++ t') = (sends t ++ sends t')%list.
Proof.
  induction t as [|ev t IH]; [reflexivity|].
  destruct ev; cbn; rewrite IH; reflexivity.
Qed.

Lemma responses_app (t t' : list Event) :
  responses (t ++ t') = (responses t ++ responses t')%list.
Proof.
  induction t as [|ev t IH]; [reflexivity|].
  destruct ev; cbn; rewrite IH; reflexivity.
Qed.

Lemma contacts_chat_app (t t' : list Event) :
  contacts_chat (t ++ t') = contacts_chat t || contacts_chat t'.
Proof. apply existsb_app. Qed.

(** ** The dispatcher *)

Section Dispatcher.
Context {rt : JSRuntime}.
Variable TARGET_CHANNEL_ID : string.
Variable discord : Discord.

Lemma dispatch_run p file u :
  ToString (userName p) = inr u ->
  dispatch TARGET_CHANNEL_ID discord p file = dispatchRun TARGET_CHANNEL_ID discord p file u.
Proof.
  intros Hu. unfold dispatch, dispatchRun, fetchChannel, channelSend.
  rewrite Hu.
  destruct (channels_fetch discord TARGET_CHANNEL_ID) as [e|[[|]|]];
    try reflexivity.
  cbn [bind emit pure fst snd app].
  destruct (composeMessage discord p file) as [[[embed files]|e|] t];
    cbn [bind fst snd app try_catch lift pure]; try reflexivity.
  destruct (send_rejects discord embed files) as [e|];
    eff; rewrite <- ?app_assoc; reflexivity.
Qed.
End Dispatcher.

(** ** The route *)

Section Route.
Context {rt : JSRuntime}.
Variable EXPECTED_SECRET : string.
Variable TARGET_CHANNEL_ID : string.
Variable discordReady : bool.
Variable discord : Discord.

Lemma checkFields_valid payload p u a :
  checkFields payload = Valid p u a ->
  p = payloadOf payload
  /\ truthy (userName p) = true /\ truthy (achievementName p) = true
  /\ ToString (userName p) = inr u /\ ToString (achievementName p) = inr a.
Proof.
  unfold checkFields.
  destruct (truthy (userName (payloadOf payload))) eqn:Hu; [|discriminate].
  destruct (truthy (achievementName (payloadOf payload))) eqn:Ha; [|discriminate].
  cbn [negb orb].
  destruct (ToString (userName (payloadOf payload))) as [e|u'] eqn:Htu; [discriminate|].
  destruct (ToString (achievementName (payloadOf payload))) as [e|a'] eqn:Hta;
    [discriminate|].
  intros H. injection H as <- <- <-. auto.
Qed.

(** A body the decoder accepts: its [jsonData] parses to a value whose two
    names are truthy and convert to text. *)
Lemma decode_valid body p u a :
  decode body = Valid p u a ->
  exists text payload,
    jsonData body = Some text /\ JSON_parse text = inr payload
    /\ p = payloadOf payload
    /\ truthy (userName p) = true /\ truthy (achievementName p) = true
    /\ ToString (userName p) = inr u /\ ToString (achievementName p) = inr a.
Proof.
  unfold decode.
  destruct (jsonData body) as [text|]; [|discriminate].
  destruct (text =? ""); [discriminate|].
  destruct (JSON_parse text) as [e|payload] eqn:Hparse; [discriminate|].
  intros H. exists text, payload.
  split; [reflexivity|]. split; [exact Hparse|].
  destruct payload; try discriminate H; apply checkFields_valid; exact H.
Qed.

Lemma route_run req :
  route EXPECTED_SECRET TARGET_CHANNEL_ID discordReady discord req
  = routeRun EXPECTED_SECRET TARGET_CHANNEL_ID discordReady discord req.
Proof.
  unfold route, routeRun.
  destruct (gate_passes EXPECTED_SECRET req) eqn:Hg.
  - rewrite authenticateRequest_passes by exact Hg.
    unfold upload_single.
    destruct (multipart req) as [e|body file]; [reflexivity|].
    rewrite call_idempotent.
    destruct discordReady.
    + rewrite notifyAchievement_ready.
      destruct (decode body) as [e| |v|e|p u a] eqn:Hd; try reflexivity.
      apply decode_valid in Hd as (text & payload & _ & _ & _ & _ & _ & Hu & _).
      rewrite (dispatch_run _ _ _ _ u Hu). reflexivity.
    + rewrite notifyAchievement_not_ready. reflexivity.
  - destruct (authenticateRequest_rejects EXPECTED_SECRET req
                (upload_single req
                   (fun body file =>
                      call (notifyAchievement TARGET_CHANNEL_ID discordReady discord
                              body file))) Hg)
      as [[-> ->]|[-> ->]]; reflexivity.
Qed.
Lemma trace_call (m : M unit) : trace (call m) = trace m.
Proof. destruct m as [[[]|e|] t]; reflexivity. Qed.

Lemma receivedTrace_quiet u a file : forallb is_console (receivedTrace u a file) = true.
Proof. destruct file; reflexivity. Qed.

(** What the dispatcher answers: one response, 500 or 200. *)
Lemma dispatchRun_responses p file u :
  responses (trace (dispatchRun TARGET_CHANNEL_ID discord p file u)) = []
  \/ responses (trace (dispatchRun TARGET_CHANNEL_ID discord p file u))
     = [(500%Z, channelUnusable)]
  \/ responses (trace (dispatchRun TARGET_CHANNEL_ID discord p file u))
     = [(500%Z, sendFailed)]
  \/ responses (trace (dispatchRun TARGET_CHANNEL_ID discord p file u))
     = [(200%Z, delivered)].
Proof.
  unfold dispatchRun.
  destruct (channels_fetch discord TARGET_CHANNEL_ID) as [e|[[|]|]]; cbn; auto.
  pose proof (composeMessage_quiet discord p file) as Hq. unfold quiet, trace in Hq.
  destruct (composeMessage discord p file) as [[[embed files]|e|] t]; cbn [snd] in *.
  - destruct (send_rejects discord embed files); cbn [trace snd responses];
      rewrite responses_app, (quiet_responses _ Hq); cbn; auto.
  - cbn [trace snd responses].
    rewrite responses_app, (quiet_responses _ Hq); cbn; auto.
  - cbn [trace snd responses]. rewrite (quiet_responses _ Hq). auto.
Qed.

(** What the dispatcher sends is the message it composed, and it sends it
    to a text channel. *)
Lemma dispatchRun_sends p file u embed files :
  In (embed, files) (sends (trace (dispatchRun TARGET_CHANNEL_ID discord p file u))) ->
  channels_fetch discord TARGET_CHANNEL_ID = FetchResolved (Some TextChannel)
  /\ fst (composeMessage discord p file) = Normal (embed, files).
Proof.
  unfold dispatchRun.
  destruct (channels_fetch discord TARGET_CHANNEL_ID) as [e|[[|]|]];
    cbn; try contradiction.
  pose proof (composeMessage_quiet discord p file) as Hq. unfold quiet, trace in Hq.
  destruct (composeMessage discord p file) as [[[embed' files']|e|] t]; cbn [snd] in *.
  - destruct (send_rejects discord embed' files'); cbn [trace snd sends];
      rewrite sends_app, (quiet_sends _ Hq); cbn;
      (intros [H|[]]; injection H as <- <-; auto).
  - cbn [trace snd sends]. rewrite sends_app, (quiet_sends _ Hq). cbn. contradiction.
  - cbn [trace snd sends]. rewrite (quiet_sends _ Hq). contradiction.
Qed.

(** A message leaves the server only after the gate, the upload, the
    readiness test and the decoder have let the request through. *)
Lemma route_sends req embed files :
  In (embed, files)
     (sends (trace (route EXPECTED_SECRET TARGET_CHANNEL_ID discordReady discord req))) ->
  exists body file p u a,
    gate_passes EXPECTED_SECRET req = true
    /\ multipart req = MulterParsed body file
    /\ discordReady = true
    /\ decode body = Valid p u a
    /\ channels_fetch discord TARGET_CHANNEL_ID = FetchResolved (Some TextChannel)
    /\ fst (composeMessage discord p file) = Normal (embed, files).
Proof.
  rewrite route_run. unfold routeRun.
  destruct (gate_passes EXPECTED_SECRET req).
  - destruct (multipart req) as [e|body file]; [cbn; contradiction|].
    destruct discordReady; [|cbn; contradiction].
    destruct (decode body) as [e| |v|e|p u a] eqn:Hd; try (cbn; contradiction).
    rewrite trace_call. cbn [trace snd].
    rewrite sends_app, (quiet_sends _ (receivedTrace_quiet u a file)).
    cbn [app]. intros H. apply dispatchRun_sends in H as [Hf Hc].
    exists body, file, p, u, a. auto 10.
  - destruct (header_missing_or_invalid (authorization req)); cbn; contradiction.
Qed.
End Route.

(** ** The endpoint *)

Section Endpoint.
Context {rt : JSRuntime}.
Variable EXPECTED_SECRET : string.
Variable TARGET_CHANNEL_ID : string.
Variable discord : Discord.

(** C1. A message sent for a request never has both picture slots filled,
    and when the request carries an uploaded file the message attaches
    that file alone, its image slot is [attachment://<name of the attached
    file>] and its thumbnail slot (the one an [iconSource] URL would go to)
    is empty, whatever [iconSource] is. *)
Theorem attachment_takes_priority ready req embed files :
  In (embed, files)
     (sends (trace (route EXPECTED_SECRET TARGET_CHANNEL_ID ready discord req))) ->
  (image embed = None \/ thumbnail embed = None)
  /\ (forall body file,
        multipart req = MulterParsed body (Some file) ->
        thumbnail embed = None
        /\ exists att,
             files = [att] /\ attachment att = buffer file
             /\ image embed = Some ("attachment://" ++ name att)).
Proof.
  intros Hsent.
  apply route_sends in Hsent as (body & file & p & u & a & _ & Hm & _ & _ & _ & Hc).
  apply composeMessage_result in Hc as (u' & a' & _ & _ & Hres).
  split.
  - destruct file as [f|]; destruct Hres as [-> _]; cbn; auto.
  - intros body' file' Hm'. rewrite Hm in Hm'. injection Hm' as _ ->.
    destruct Hres as [-> ->]. split; [reflexivity|].
    eexists. split; [reflexivity|]. split; reflexivity.
Qed.

(** C2. A message sent for a request has the fixed title, the description
    [**<userName>** has unlocked the achievement: **<achievementName>**!]
    built from the two names as text (for a string, the string itself), a
    field labelled [Description] exactly when [achievementDescription] is
    truthy (for a string: present and not empty), and, when the request
    has neither an uploaded file nor an [iconSource], no picture at all. *)
Theorem message_text ready req body file text payload embed files :
  In (embed, files)
     (sends (trace (route EXPECTED_SECRET TARGET_CHANNEL_ID ready discord req))) ->
  multipart req = MulterParsed body file ->
  jsonData body = Some text ->
  JSON_parse text = inr payload ->
  title embed = Some embedTitle
  /\ (exists u a,
        ToString (get_prop payload "userName") = inr u
        /\ ToString (get_prop payload "achievementName") = inr a
        /\ description embed
           = Some ("**" ++ u ++ "** has unlocked the achievement: **" ++ a ++ "**!"))
  /\ fields embed
     = (if truthy (get_prop payload "achievementDescription")
        then [("Description", get_prop payload "achievementDescription")]
        else [])
  /\ (file = None -> get_prop payload "iconSource" = JSUndefined ->
      image embed = None /\ thumbnail embed = None /\ files = []).
Proof.
  intros Hsent Hm Hj Hp.
  apply route_sends in Hsent as (body' & file' & p & u & a & _ & Hm' & _ & Hd & _ & Hc).
  rewrite Hm in Hm'. injection Hm' as <- <-.
  apply decode_valid in Hd as (text' & payload' & Hj' & Hp' & -> & _).
  rewrite Hj in Hj'. injection Hj' as <-.
  rewrite Hp in Hp'. injection Hp' as <-.
  apply composeMessage_result in Hc as (u' & a' & Hu & Ha & Hres).
  assert (embed = messageEmbed (now discord) u' a'
                    (achievementDescription (payloadOf payload))
                    (image embed) (thumbnail embed)) as Hembed
    by (destruct file; destruct Hres as [-> _]; reflexivity).
  split; [rewrite Hembed; reflexivity|].
  split; [exists u', a'; rewrite Hembed; auto|].
  split; [rewrite Hembed; reflexivity|].
  intros -> Hicon. destruct Hres as [-> ->].
  cbn [payloadOf iconSource]. rewrite Hicon. auto.
Qed.

(** C3, as the code has it.  A message sent for a request without an
    uploaded file attaches nothing and leaves the image slot empty; its
    thumbnail slot holds [iconSource] when that is a string that starts
    with [http://] or [https://], and nothing otherwise. *)
Theorem icon_url_goes_to_thumbnail ready req body text payload embed files :
  In (embed, files)
     (sends (trace (route EXPECTED_SECRET TARGET_CHANNEL_ID ready discord req))) ->
  multipart req = MulterParsed body None ->
  jsonData body = Some text ->
  JSON_parse text = inr payload ->
  files = [] /\ image embed = None
  /\ thumbnail embed = trustedIcon (get_prop payload "iconSource").
Proof.
  intros Hsent Hm Hj Hp.
  apply route_sends in Hsent as (body' & file' & p & u & a & _ & Hm' & _ & Hd & _ & Hc).
  rewrite Hm in Hm'. injection Hm' as <- <-.
  apply decode_valid in Hd as (text' & payload' & Hj' & Hp' & -> & _).
  rewrite Hj in Hj'. injection Hj' as <-.
  rewrite Hp in Hp'. injection Hp' as <-.
  apply composeMessage_result in Hc as (u' & a' & _ & _ & -> & ->).
  auto.
Qed.

(** C8. A message sent for a request with an uploaded file attaches the
    file under its original name when that is given (and not empty), and
    otherwise under [achievement-<achievementName>.png]; the image slot
    refers to the attachment by that name. *)
Theorem attachment_name ready req body file text payload embed files :
  In (embed, files)
     (sends (trace (route EXPECTED_SECRET TARGET_CHANNEL_ID ready discord req))) ->
  multipart req = MulterParsed body (Some file) ->
  jsonData body = Some text ->
  JSON_parse text = inr payload ->
  exists a assigned,
    ToString (get_prop payload "achievementName") = inr a
    /\ files = [{| attachment := buffer file; name := assigned |}]
    /\ image embed = Some ("attachment://" ++ assigned)
    /\ (forall original,
          originalname file = Some original -> original <> EmptyString ->
          assigned = original)
    /\ (originalname file = None \/ originalname file = Some EmptyString ->
        assigned = "achievement-" ++ a ++ ".png").
Proof.
  intros Hsent Hm Hj Hp.
  apply route_sends in Hsent as (body' & file' & p & u & a & _ & Hm' & _ & Hd & _ & Hc).
  rewrite Hm in Hm'. injection Hm' as <- <-.
  apply decode_valid in Hd as (text' & payload' & Hj' & Hp' & -> & _).
  rewrite Hj in Hj'. injection Hj' as <-.
  rewrite Hp in Hp'. injection Hp' as <-.
  apply composeMessage_result in Hc as (u' & a' & _ & Ha & -> & ->).
  exists a', (assignedName file a').
  split; [exact Ha|]. split; [reflexivity|]. split; [reflexivity|].
  unfold assignedName. split.
  - intros original -> Hne. apply String.eqb_neq in Hne. rewrite Hne. reflexivity.
  - intros [->| ->]; reflexivity.
Qed.

(** A request that passes every check is delivered when the chat library
    accepts it and, if no file is uploaded, [iconSource] is falsy or a
    string: one message is sent and the answer is 200. *)
Lemma notification_is_delivered req body file p u a :
  gate_passes EXPECTED_SECRET req = true ->
  multipart req = MulterParsed body file ->
  decode body = Valid p u a ->
  channels_fetch discord TARGET_CHANNEL_ID = FetchResolved (Some TextChannel) ->
  (forall call, builder_throws discord call = None) ->
  (forall embed files, send_rejects discord embed files = None) ->
  (file = None ->
   truthy (iconSource p) = false \/ exists url, iconSource p = JSString url) ->
  responses (trace (route EXPECTED_SECRET TARGET_CHANNEL_ID true discord req))
  = [(200%Z, delivered)]
  /\ sends (trace (route EXPECTED_SECRET TARGET_CHANNEL_ID true discord req))
     = [match file with
        | Some f =>
            (messageEmbed (now discord) u a (achievementDescription p)
               (Some ("attachment://" ++ assignedName f a)) None,
             [{| attachment := buffer f; name := assignedName f a |}])
        | None =>
            (messageEmbed (now discord) u a (achievementDescription p)
               None (trustedIcon (iconSource p)),
             [])
        end].
Proof.
  intros Hg Hm Hd Hf Hok Hsend Hicon.
  pose proof Hd as Hvalid.
  apply decode_valid in Hvalid as (text & payload & _ & _ & _ & _ & _ & Hu & Ha).
  pose proof (composeMessage_accepted discord p file u a Hok Hu Ha Hicon) as Hc.
  pose proof (composeMessage_quiet discord p file) as Hq. unfold quiet, trace in Hq.
  rewrite route_run. unfold routeRun. rewrite Hg, Hm, Hd.
  rewrite trace_call. cbn [trace snd].
  rewrite responses_app, sends_app,
    (quiet_responses _ (receivedTrace_quiet u a file)),
    (quiet_sends _ (receivedTrace_quiet u a file)).
  cbn [app]. unfold dispatchRun. rewrite Hf.
  destruct (composeMessage discord p file) as [c t]. cbn [fst snd] in *. subst c.
  destruct file as [f|]; cbv beta iota; rewrite Hsend; cbn [trace snd responses sends];
    rewrite responses_app, sends_app, (quiet_responses _ Hq), (quiet_sends _ Hq);
    split; reflexivity.
Qed.

(** C4, as the code has it.  While the chat client is not ready, a request
    that passes the credential gate and the upload middleware is answered
    503 whatever its payload is, at once, with no call to the chat
    service. *)
Theorem not_ready_answers_503 req body file :
  gate_passes EXPECTED_SECRET req = true ->
  multipart req = MulterParsed body file ->
  route EXPECTED_SECRET TARGET_CHANNEL_ID false discord req
  = (Normal tt, notReadyTrace)
  /\ responses (trace (route EXPECTED_SECRET TARGET_CHANNEL_ID false discord req))
     = [(503%Z, ErrorBody "Service Unavailable: Discord client not ready")]
  /\ contacts_chat (trace (route EXPECTED_SECRET TARGET_CHANNEL_ID false discord req))
     = false.
Proof.
  intros Hg Hm. rewrite route_run. unfold routeRun. rewrite Hg, Hm.
  split; [reflexivity|]. split; reflexivity.
Qed.

Lemma decode_bad body :
  BadPayload body ->
  (exists e, decode body = BadJson e) \/ (exists v, decode body = MissingFields v).
Proof.
  intros [Hj|Hj|text e Hj Hp|text payload Hj Hp Hnull Hundef Hnames];
    unfold decode; rewrite Hj; try (left; eexists; reflexivity).
  - destruct (text =? ""); [left; eexists; reflexivity|].
    rewrite Hp. left; eexists; reflexivity.
  - destruct (text =? ""); [left; eexists; reflexivity|].
    rewrite Hp. right. exists payload.
    assert (checkFields payload = MissingFields payload) as Hc.
    { unfold checkFields. cbn [payloadOf userName achievementName].
      destruct Hnames as [-> | ->]; cbn [negb orb]; [reflexivity|].
      rewrite orb_true_r. reflexivity. }
    destruct payload; try exact Hc; contradiction.
Qed.

(** C5, as the code has it.  Once the chat client is ready, an
    authenticated request whose [jsonData] is absent, empty or not JSON, or
    parses to a value other than [null] without a truthy [userName] or
    [achievementName], is answered 400 and the chat service is not
    called: no channel is fetched, nothing is sent. *)
Theorem bad_payload_answers_400 req body file :
  gate_passes EXPECTED_SECRET req = true ->
  multipart req = MulterParsed body file ->
  BadPayload body ->
  (exists message,
     responses (trace (route EXPECTED_SECRET TARGET_CHANNEL_ID true discord req))
     = [(400%Z, ErrorBody message)])
  /\ contacts_chat (trace (route EXPECTED_SECRET TARGET_CHANNEL_ID true discord req))
     = false
  /\ sends (trace (route EXPECTED_SECRET TARGET_CHANNEL_ID true discord req)) = [].
Proof.
  intros Hg Hm Hbad. rewrite route_run. unfold routeRun. rewrite Hg, Hm.
  destruct (decode_bad body Hbad) as [[e ->]|[v ->]];
    (split; [eexists; reflexivity|split; reflexivity]).
Qed.

(** C7. For a request that reaches the dispatcher, every failure there is
    answered 500 with a body fixed by the kind of failure alone: one text
    when the channel is missing or is not a text channel, another when
    fetching, composing or sending throws.  The error thrown is written to
    the console and is no part of the response. *)
Theorem dispatch_failure_answers_500 req body file p u a cause :
  gate_passes EXPECTED_SECRET req = true ->
  multipart req = MulterParsed body file ->
  decode body = Valid p u a ->
  DispatchFailure TARGET_CHANNEL_ID discord p file cause ->
  responses (trace (route EXPECTED_SECRET TARGET_CHANNEL_ID true discord req))
  = [(500%Z, match cause with
             | None => channelUnusable
             | Some _ => sendFailed
             end)]
  /\ (forall e, cause = Some e ->
        In (failureLog u e)
           (trace (route EXPECTED_SECRET TARGET_CHANNEL_ID true discord req))).
Proof.
  intros Hg Hm Hd Hfail. rewrite route_run. unfold routeRun. rewrite Hg, Hm, Hd.
  rewrite trace_call. cbn [trace snd].
  rewrite responses_app, (quiet_responses _ (receivedTrace_quiet u a file)).
  cbn [app]. unfold dispatchRun.
  pose proof (composeMessage_quiet discord p file) as Hq. unfold quiet, trace in Hq.
  destruct Hfail as [Hf|Hf|e Hf|e Hf Hc|e embed files Hf Hc Hs]; rewrite Hf.
  - split; [reflexivity|discriminate].
  - split; [reflexivity|discriminate].
  - split; [reflexivity|].
    intros e' He. injection He as <-. apply in_or_app. right. cbn. auto.
  - destruct (composeMessage discord p file) as [c t]. cbn [fst snd] in *. subst c.
    cbn [trace snd responses]. rewrite responses_app, (quiet_responses _ Hq).
    split; [reflexivity|].
    intros e' He. injection He as <-.
    apply in_or_app. right. right. apply in_or_app. right. cbn. auto.
  - destruct (composeMessage discord p file) as [c t]. cbn [fst snd] in *. subst c.
    rewrite Hs. cbn [trace snd responses].
    rewrite responses_app, (quiet_responses _ Hq).
    split; [reflexivity|].
    intros e' He. injection He as <-.
    apply in_or_app. right. right. apply in_or_app. right. cbn. auto.
Qed.

(** C10. When the response is 401, 403, 503 or 400 the chat service has
    not been called: the run holds no channel fetch and no send. *)
Theorem rejections_leave_chat_untouched ready req status body :
  In (status, body)
     (responses (trace (route EXPECTED_SECRET TARGET_CHANNEL_ID ready discord req))) ->
  In status [401; 403; 503; 400]%Z ->
  contacts_chat (trace (route EXPECTED_SECRET TARGET_CHANNEL_ID ready discord req))
  = false.
Proof.
  rewrite route_run. unfold routeRun.
  destruct (gate_passes EXPECTED_SECRET req).
  - destruct (multipart req) as [e|body' file]; [reflexivity|].
    destruct ready; [|reflexivity].
    destruct (decode body') as [e| |v|e|p u a]; try reflexivity.
    rewrite trace_call. cbn [trace snd].
    rewrite responses_app, (quiet_responses _ (receivedTrace_quiet u a file)).
    cbn [app]. intros Hin Hstatus. exfalso.
    destruct (dispatchRun_responses TARGET_CHANNEL_ID discord p file u)
      as [H|[H|[H|H]]]; rewrite H in Hin; cbn in Hin;
      try contradiction;
      (destruct Hin as [Hin|[]]; injection Hin as <- _;
       cbn in Hstatus; intuition discriminate).
  - destruct (header_missing_or_invalid (authorization req)); reflexivity.
Qed.

(** The chat service is called only after the gate, the upload, the
    readiness test and the decoder have let the request through. *)
Lemma chat_call_after_checks ready req :
  contacts_chat (trace (route EXPECTED_SECRET TARGET_CHANNEL_ID ready discord req))
  = true ->
  gate_passes EXPECTED_SECRET req = true /\ ready = true
  /\ exists body file p u a,
       multipart req = MulterParsed body file /\ decode body = Valid p u a.
Proof.
  rewrite route_run. unfold routeRun.
  destruct (gate_passes EXPECTED_SECRET req).
  - destruct (multipart req) as [e|body file]; [discriminate|].
    destruct ready; [|discriminate].
    destruct (decode body) as [e| |v|e|p u a] eqn:Hd; try discriminate.
    intros _. split; [reflexivity|]. split; [reflexivity|].
    exists body, file, p, u, a. auto.
  - destruct (header_missing_or_invalid (authorization req)); discriminate.
Qed.
End Endpoint.

(** ** The properties on example requests *)

(** C1 on a request with [trophy.png] and an [iconSource] URL. *)
Lemma attachment_takes_priority_example :
  let req := exampleRequest bearer aliceWithIcon (Some trophy) in
  let embed := aliceEmbed aboutDragon (Some "attachment://trophy.png") None in
  In (embed, [trophyAttachment]) (sends (trace (exampleRoute true exampleDiscord req)))
  /\ (image embed = None \/ thumbnail embed = None)
  /\ (forall body file,
        multipart req = MulterParsed body (Some file) ->
        thumbnail embed = None
        /\ exists att,
             [trophyAttachment] = [att] /\ attachment att = buffer file
             /\ image embed = Some ("attachment://" ++ name att)).
Proof.
  intros req embed.
  assert (In (embed, [trophyAttachment])
             (sends (trace (exampleRoute true exampleDiscord req)))) as Hsent
    by (vm_compute; left; reflexivity).
  split; [exact Hsent|].
  exact (attachment_takes_priority (rt := exampleRuntime) exampleSecret exampleChannel
           exampleDiscord true req embed [trophyAttachment] Hsent).
Defined.

(** C2 on Alice's notification without file or icon. *)
Lemma message_text_example :
  let req := exampleRequest bearer alice None in
  let embed := aliceEmbed JSUndefined None None in
  In (embed, []) (sends (trace (exampleRoute true exampleDiscord req)))
  /\ multipart req = MulterParsed {| jsonData := Some (jsonText alice) |} None
  /\ jsonData {| jsonData := Some (jsonText alice) |} = Some (jsonText alice)
  /\ JSON_parse (JSRuntime := exampleRuntime) (jsonText alice) = inr (jsonObject alice)
  /\ title embed = Some embedTitle
  /\ (exists u a,
        ToString (rt := exampleRuntime) (get_prop (jsonObject alice) "userName") = inr u
        /\ ToString (rt := exampleRuntime) (get_prop (jsonObject alice) "achievementName")
           = inr a
        /\ description embed
           = Some ("**" ++ u ++ "** has unlocked the achievement: **" ++ a ++ "**!"))
  /\ fields embed
     = (if truthy (get_prop (jsonObject alice) "achievementDescription")
        then [("Description", get_prop (jsonObject alice) "achievementDescription")]
        else [])
  /\ (@None UploadedFile = None ->
      get_prop (jsonObject alice) "iconSource" = JSUndefined ->
      image embed = None /\ thumbnail embed = None /\ @nil Attachment = []).
Proof.
  intros req embed.
  assert (In (embed, []) (sends (trace (exampleRoute true exampleDiscord req)))) as Hsent
    by (vm_compute; left; reflexivity).
  assert (JSON_parse (JSRuntime := exampleRuntime) (jsonText alice)
          = inr (jsonObject alice)) as Hparse by (vm_compute; reflexivity).
  split; [exact Hsent|]. split; [reflexivity|]. split; [reflexivity|].
  split; [exact Hparse|].
  exact (message_text (rt := exampleRuntime) exampleSecret exampleChannel exampleDiscord
           true req _ None _ _ embed [] Hsent eq_refl eq_refl Hparse).
Defined.

(** The claim of C3 as it is written puts the URL in the image slot; the
    server leaves that slot empty and fills the thumbnail. *)
Lemma icon_url_is_not_the_image :
  map (fun message => (image (fst message), thumbnail (fst message), snd message))
      (sends (trace (exampleRoute true exampleDiscord
                       (exampleRequest bearer aliceWithIcon None))))
  = [(None, Some "https://example.com/icon.png", [])].
Proof. vm_compute. reflexivity. Qed.

(** C3, as the code has it, on a request with an [https://] icon and no file. *)
Lemma icon_url_goes_to_thumbnail_example :
  let req := exampleRequest bearer aliceWithIcon None in
  let embed := aliceEmbed aboutDragon None (Some "https://example.com/icon.png") in
  In (embed, []) (sends (trace (exampleRoute true exampleDiscord req)))
  /\ multipart req = MulterParsed {| jsonData := Some (jsonText aliceWithIcon) |} None
  /\ jsonData {| jsonData := Some (jsonText aliceWithIcon) |}
     = Some (jsonText aliceWithIcon)
  /\ JSON_parse (JSRuntime := exampleRuntime) (jsonText aliceWithIcon)
     = inr (jsonObject aliceWithIcon)
  /\ @nil Attachment = [] /\ image embed = None
  /\ thumbnail embed = trustedIcon (get_prop (jsonObject aliceWithIcon) "iconSource").
Proof.
  intros req embed.
  assert (In (embed, []) (sends (trace (exampleRoute true exampleDiscord req)))) as Hsent
    by (vm_compute; left; reflexivity).
  assert (JSON_parse (JSRuntime := exampleRuntime) (jsonText aliceWithIcon)
          = inr (jsonObject aliceWithIcon)) as Hparse by (vm_compute; reflexivity).
  split; [exact Hsent|]. split; [reflexivity|]. split; [reflexivity|].
  split; [exact Hparse|].
  exact (icon_url_goes_to_thumbnail (rt := exampleRuntime) exampleSecret exampleChannel
           exampleDiscord true req _ _ _ embed [] Hsent eq_refl eq_refl Hparse).
Defined.

(** An [iconSource] that fails the prefix test leaves both slots empty. *)
Example ftp_icon_is_dropped :
  map (fun message => (image (fst message), thumbnail (fst message), snd message))
      (sends (trace (exampleRoute true exampleDiscord
                       (exampleRequest bearer aliceWithFtpIcon None))))
  = [(None, None, [])].
Proof. vm_compute. reflexivity. Qed.

(** C8 on a request with [trophy.png]. *)
Lemma attachment_name_example :
  let req := exampleRequest bearer alice (Some trophy) in
  let embed := aliceEmbed JSUndefined (Some "attachment://trophy.png") None in
  In (embed, [trophyAttachment]) (sends (trace (exampleRoute true exampleDiscord req)))
  /\ multipart req = MulterParsed {| jsonData := Some (jsonText alice) |} (Some trophy)
  /\ jsonData {| jsonData := Some (jsonText alice) |} = Some (jsonText alice)
  /\ JSON_parse (JSRuntime := exampleRuntime) (jsonText alice) = inr (jsonObject alice)
  /\ exists a assigned,
       ToString (rt := exampleRuntime) (get_prop (jsonObject alice) "achievementName")
       = inr a
       /\ [trophyAttachment] = [{| attachment := buffer trophy; name := assigned |}]
       /\ image embed = Some ("attachment://" ++ assigned)
       /\ (forall original,
             originalname trophy = Some original -> original <> EmptyString ->
             assigned = original)
       /\ (originalname trophy = None \/ originalname trophy = Some EmptyString ->
           assigned = "achievement-" ++ a ++ ".png").
Proof.
  intros req embed.
  assert (In (embed, [trophyAttachment])
             (sends (trace (exampleRoute true exampleDiscord req)))) as Hsent
    by (vm_compute; left; reflexivity).
  assert (JSON_parse (JSRuntime := exampleRuntime) (jsonText alice)
          = inr (jsonObject alice)) as Hparse by (vm_compute; reflexivity).
  split; [exact Hsent|]. split; [reflexivity|]. split; [reflexivity|].
  split; [exact Hparse|].
  exact (attachment_name (rt := exampleRuntime) exampleSecret exampleChannel
           exampleDiscord true req _ trophy _ _ embed [trophyAttachment]
           Hsent eq_refl eq_refl Hparse).
Defined.

(** A file uploaded without a name is attached under the generated one. *)
Example nameless_upload_gets_generated_name :
  map (fun message => (image (fst message), map name (snd message)))
      (sends (trace (exampleRoute true exampleDiscord
                       (exampleRequest bearer alice
                          (Some {| originalname := None; buffer := buffer trophy;
                                   size := 2048; mimetype := "image/png" |})))))
  = [(Some "attachment://achievement-Dragon Slayer.png",
      ["achievement-Dragon Slayer.png"])].
Proof. vm_compute. reflexivity. Qed.

(** The claim of C4 as it is written answers 503 to every request; a
    request without credentials is answered 401, ready or not. *)
Lemma not_ready_unauthenticated_is_401 :
  responses (trace (exampleRoute false exampleDiscord (exampleRequest None alice None)))
  = [(401%Z, ErrorBody "Unauthorized: Missing authorization header")].
Proof. vm_compute. reflexivity. Qed.

(** C4, as the code has it, on an authenticated request with an invalid payload. *)
Lemma not_ready_answers_503_example :
  let req := exampleRequest bearer anonymous None in
  gate_passes exampleSecret req = true
  /\ multipart req = MulterParsed {| jsonData := Some (jsonText anonymous) |} None
  /\ exampleRoute false exampleDiscord req = (Normal tt, notReadyTrace)
  /\ responses (trace (exampleRoute false exampleDiscord req))
     = [(503%Z, ErrorBody "Service Unavailable: Discord client not ready")]
  /\ contacts_chat (trace (exampleRoute false exampleDiscord req)) = false.
Proof.
  intros req.
  assert (gate_passes exampleSecret req = true) as Hgate by (vm_compute; reflexivity).
  split; [exact Hgate|]. split; [reflexivity|].
  exact (not_ready_answers_503 (rt := exampleRuntime) exampleSecret exampleChannel
           exampleDiscord req _ None Hgate eq_refl).
Defined.

(** The claim of C5 as it is written answers 400 to every authenticated
    request without [jsonData]; before the chat client is ready the answer
    is 503. *)
Lemma bad_payload_not_ready_is_503 :
  responses (trace (exampleRoute false exampleDiscord
                      {| authorization := bearer;
                         multipart := MulterParsed {| jsonData := None |} None |}))
  = [(503%Z, ErrorBody "Service Unavailable: Discord client not ready")].
Proof. vm_compute. reflexivity. Qed.

(** C5, as the code has it, on a payload without [userName]. *)
Lemma bad_payload_answers_400_example :
  let req := exampleRequest bearer anonymous None in
  let body := {| jsonData := Some (jsonText anonymous) |} in
  gate_passes exampleSecret req = true
  /\ multipart req = MulterParsed body None
  /\ BadPayload (rt := exampleRuntime) body
  /\ (exists message,
        responses (trace (exampleRoute true exampleDiscord req))
        = [(400%Z, ErrorBody message)])
  /\ contacts_chat (trace (exampleRoute true exampleDiscord req)) = false
  /\ sends (trace (exampleRoute true exampleDiscord req)) = [].
Proof.
  intros req body.
  assert (gate_passes exampleSecret req = true) as Hgate by (vm_compute; reflexivity).
  assert (BadPayload (rt := exampleRuntime) body) as Hbad.
  { apply (NamesMissing (rt := exampleRuntime) body (jsonText anonymous)
             (jsonObject anonymous)).
    - reflexivity.
    - vm_compute; reflexivity.
    - discriminate.
    - discriminate.
    - left. reflexivity. }
  split; [exact Hgate|]. split; [reflexivity|]. split; [exact Hbad|].
  exact (bad_payload_answers_400 (rt := exampleRuntime) exampleSecret exampleChannel
           exampleDiscord req body None Hgate eq_refl Hbad).
Defined.

(** [jsonData] that is the text [null] parses, and destructuring the
    result throws outside every [try]: the handler writes no response. *)
Example null_payload_is_not_answered :
  exampleRoute true exampleDiscord
    {| authorization := bearer;
       multipart := MulterParsed {| jsonData := Some "null" |} None |}
  = (Throw destructureNull, []).
Proof. vm_compute. reflexivity. Qed.

(** C7 when the target channel was deleted. *)
Lemma dispatch_failure_answers_500_example :
  let req := exampleRequest bearer alice None in
  let body := {| jsonData := Some (jsonText alice) |} in
  let p := payloadOf (jsonObject alice) in
  gate_passes exampleSecret req = true
  /\ multipart req = MulterParsed body None
  /\ decode (rt := exampleRuntime) body = Valid p "Alice" "Dragon Slayer"
  /\ DispatchFailure (rt := exampleRuntime) exampleChannel deletedChannelDiscord
       p None None
  /\ responses (trace (exampleRoute true deletedChannelDiscord req))
     = [(500%Z, channelUnusable)]
  /\ (forall e, None = Some e ->
        In (failureLog "Alice" e) (trace (exampleRoute true deletedChannelDiscord req))).
Proof.
  intros req body p.
  assert (gate_passes exampleSecret req = true) as Hgate by (vm_compute; reflexivity).
  assert (decode (rt := exampleRuntime) body = Valid p "Alice" "Dragon Slayer") as Hvalid
    by (vm_compute; reflexivity).
  assert (DispatchFailure (rt := exampleRuntime) exampleChannel deletedChannelDiscord
            p None None) as Hfail by (apply ChannelMissing; reflexivity).
  split; [exact Hgate|]. split; [reflexivity|]. split; [exact Hvalid|].
  split; [exact Hfail|].
  exact (dispatch_failure_answers_500 (rt := exampleRuntime) exampleSecret exampleChannel
           deletedChannelDiscord req body None p "Alice" "Dragon Slayer" None
           Hgate eq_refl Hvalid Hfail).
Defined.

(** A send the chat service refuses: the error goes to the console, the
    response is the fixed text. *)
Example refused_send_is_logged_not_answered :
  let run := exampleRoute true refusingDiscord (exampleRequest bearer alice None) in
  responses (trace run) = [(500%Z, sendFailed)]
  /\ filter (fun ev => match ev with Console Error _ _ => true | _ => false end)
            (trace run)
     = [failureLog "Alice" (LibraryError "Missing Permissions")].
Proof. vm_compute. split; reflexivity. Qed.

(** C9 on the header [Bearer s3cret extra]. *)
Lemma second_segment_decides_example :
  let h := "Bearer s3cret extra" in
  let h' := "Bearer extra s3cret" in
  let req := exampleRequest (Some h) alice None in
  let req' := exampleRequest (Some h') alice None in
  let next := respond 200 delivered in
  authorization req = Some h
  /\ startsWith h "Bearer " = true
  /\ nth_error (split " " h) 1 = Some exampleSecret
  /\ authenticateRequest exampleSecret req next = call next
  /\ authorization req' = Some h'
  /\ startsWith h' "Bearer " = true
  /\ nth_error (split " " h') 1 = Some "extra"
  /\ authenticateRequest exampleSecret req' next = forbidden.
Proof.
  intros h h' req req' next.
  assert (nth_error (split " " h') 1 <> Some exampleSecret) as Hdiffers
    by (vm_compute; discriminate).
  split; [reflexivity|]. split; [reflexivity|]. split; [reflexivity|].
  split; [exact (proj1 (second_segment_decides exampleSecret req next h
                          eq_refl eq_refl) eq_refl)|].
  split; [reflexivity|]. split; [reflexivity|]. split; [reflexivity|].
  exact (proj1 (proj2 (second_segment_decides exampleSecret req' next h'
                         eq_refl eq_refl)) Hdiffers).
Defined.

(** The claim of C6 as it is written lets a request through only when the
    token after ["Bearer "] is the secret; the gate lets [Bearer s3cret
    extra] through, where what follows the prefix is not the secret. *)
Lemma gate_passes_with_trailing_content :
  authenticateRequest exampleSecret
    (exampleRequest (Some ("Bearer " ++ "s3cret extra")) alice None)
    (respond 200 delivered)
  = call (respond 200 delivered)
  /\ ("s3cret extra" =? exampleSecret) = false.
Proof. split; vm_compute; reflexivity. Qed.

(** The same header on the whole route: the notification is delivered. *)
Example trailing_content_is_delivered :
  responses (trace (exampleRoute true exampleDiscord
                      (exampleRequest (Some "Bearer s3cret extra") alice None)))
  = [(200%Z, delivered)].
Proof. vm_compute. reflexivity. Qed.

(** C10 on a request with a wrong secret. *)
Lemma rejections_leave_chat_untouched_example :
  let req := exampleRequest (Some "Bearer wrong") alice (Some trophy) in
  In (403%Z, ErrorBody "Forbidden: Invalid secret")
     (responses (trace (exampleRoute true exampleDiscord req)))
  /\ In 403%Z [401; 403; 503; 400]%Z
  /\ contacts_chat (trace (exampleRoute true exampleDiscord req)) = false.
Proof.
  intros req.
  assert (In (403%Z, ErrorBody "Forbidden: Invalid secret")
             (responses (trace (exampleRoute true exampleDiscord req)))) as Hin
    by (vm_compute; left; reflexivity).
  assert (In 403%Z [401; 403; 503; 400]%Z) as Hstatus by (right; left; reflexivity).
  split; [exact Hin|]. split; [exact Hstatus|].
  exact (rejections_leave_chat_untouched (rt := exampleRuntime) exampleSecret
           exampleChannel exampleDiscord true req _ _ Hin Hstatus).
Defined.

(** The three outcomes of the gate on example headers. *)
Example gate_examples :
  responses (trace (exampleRoute true exampleDiscord (exampleRequest None alice None)))
  = [(401%Z, ErrorBody "Unauthorized: Missing authorization header")]
  /\ responses (trace (exampleRoute true exampleDiscord
                         (exampleRequest (Some "Basic s3cret") alice None)))
     = [(401%Z, ErrorBody "Unauthorized: Missing authorization header")]
  /\ responses (trace (exampleRoute true exampleDiscord
                         (exampleRequest (Some "Bearer ") alice None)))
     = [(403%Z, ErrorBody "Forbidden: Invalid secret")]
  /\ responses (trace (exampleRoute true exampleDiscord
                         (exampleRequest bearer alice None)))
     = [(200%Z, delivered)].
Proof. vm_compute. repeat split. Qed.

(** * More on the pipeline *)

(** ** Runs that do not end in a bare [return;] *)

Lemma no_return_bind {A B} (m : M A) (k : A -> M B) :
  fst m <> Return -> (forall a, fst (k a) <> Return) -> fst (bind m k) <> Return.
Proof.
  unfold bind. destruct m as [[a|e|] t]; cbn [fst]; intros Hm Hk.
  - specialize (Hk a). destruct (k a) as [c t']. exact Hk.
  - discriminate.
  - contradiction.
Qed.

Lemma no_return_pure {A} (a : A) : fst (@pure Event A a) <> Return.
Proof. discriminate. Qed.

Lemma no_return_lift {A} (r : JSError + A) : fst (lift r) <> Return.
Proof. destruct r; discriminate. Qed.

Lemma no_return_console level text rest : fst (console level text rest) <> Return.
Proof. discriminate. Qed.

Lemma no_return_validated discord call : fst (validated discord call) <> Return.
Proof. unfold validated. destruct (builder_throws discord call); discriminate. Qed.

Lemma no_return_value_startsWith v prefix : fst (value_startsWith v prefix) <> Return.
Proof. destruct v; discriminate. Qed.

Create HintDb no_return.
#[local] Hint Resolve no_return_pure no_return_lift no_return_console
  no_return_validated no_return_value_startsWith : no_return.

Ltac no_return_steps :=
  repeat first
    [ apply no_return_bind; [|intros ?]
    | progress auto with no_return
    | match goal with
      | |- fst (if ?b then _ else _) <> Return => destruct b
      | |- fst (match ?x with _ => _ end) <> Return => destruct x
      end ].

Lemma fetches_app (t t' : list Event) : fetches (t ++ t') = (fetches t ++ fetches t')%list.
Proof.
  induction t as [|ev t IH]; [reflexivity|].
  destruct ev; cbn; rewrite IH; reflexivity.
Qed.

Lemma quiet_fetches (t : list Event) : forallb is_console t = true -> fetches t = [].
Proof.
  induction t as [|ev t IH]; [reflexivity|].
  destruct ev; cbn; try discriminate. exact IH.
Qed.

Lemma fst_call (m : M unit) :
  fst (call m) = match fst m with Throw e => Throw e | _ => Normal tt end.
Proof. destruct m as [[[]|e|] t]; reflexivity. Qed.

Section Pipeline.
Context {rt : JSRuntime}.
Variable EXPECTED_SECRET : string.
Variable TARGET_CHANNEL_ID : string.
Variable discord : Discord.

Lemma composeMessage_no_return p file : fst (composeMessage discord p file) <> Return.
Proof.
  unfold composeMessage, describe, illustrate, attachmentName, iconSourceUsable,
    setColor, setTitle, setDescription, setTimestamp, addFields, setImage,
    setThumbnail, newAttachment.
  no_return_steps.
Qed.

(** The dispatcher by what it leaves behind: it fetches the target channel
    once, sends at most one message, answers once, and catches whatever
    the chat library throws. *)
Lemma dispatchRun_cases p file u :
  fetches (trace (dispatchRun TARGET_CHANNEL_ID discord p file u)) = [TARGET_CHANNEL_ID]
  /\ (forall e, fst (dispatchRun TARGET_CHANNEL_ID discord p file u) <> Throw e)
  /\ ((sends (trace (dispatchRun TARGET_CHANNEL_ID discord p file u)) = []
       /\ (responses (trace (dispatchRun TARGET_CHANNEL_ID discord p file u))
           = [(500%Z, channelUnusable)]
           \/ responses (trace (dispatchRun TARGET_CHANNEL_ID discord p file u))
              = [(500%Z, sendFailed)]))
      \/ exists embed files,
           channels_fetch discord TARGET_CHANNEL_ID = FetchResolved (Some TextChannel)
           /\ fst (composeMessage discord p file) = Normal (embed, files)
           /\ sends (trace (dispatchRun TARGET_CHANNEL_ID discord p file u))
              = [(embed, files)]
           /\ ((exists e, send_rejects discord embed files = Some e
                  /\ responses (trace (dispatchRun TARGET_CHANNEL_ID discord p file u))
                     = [(500%Z, sendFailed)])
               \/ (send_rejects discord embed files = None
                   /\ responses (trace (dispatchRun TARGET_CHANNEL_ID discord p file u))
                      = [(200%Z, delivered)]))).
Proof.
  unfold dispatchRun.
  destruct (channels_fetch discord TARGET_CHANNEL_ID) as [e|[[|]|]] eqn:Hf;
    try (cbn; split; [reflexivity|split; [discriminate|left; auto]]).
  pose proof (composeMessage_quiet discord p file) as Hq. unfold quiet, trace in Hq.
  pose proof (composeMessage_no_return p file) as Hnr.
  destruct (composeMessage discord p file) as [[[embed files]|e|] t]; cbn [fst snd] in *.
  - destruct (send_rejects discord embed files) as [e|] eqn:Hs;
      cbn [trace fst snd fetches sends responses];
      rewrite fetches_app, sends_app, responses_app,
        (quiet_fetches _ Hq), (quiet_sends _ Hq), (quiet_responses _ Hq);
      (split; [reflexivity|]); (split; [discriminate|]);
      right; exists embed, files; (repeat split; try reflexivity);
      [left; exists e; auto | right; auto].
  - cbn [trace fst snd fetches sends responses].
    rewrite fetches_app, sends_app, responses_app,
      (quiet_fetches _ Hq), (quiet_sends _ Hq), (quiet_responses _ Hq).
    split; [reflexivity|]. split; [discriminate|]. left. auto.
  - contradiction.
Qed.
End Pipeline.

(** ** What every run of the route looks like *)

Section Answers.
Context {rt : JSRuntime}.
Variable EXPECTED_SECRET : string.
Variable TARGET_CHANNEL_ID : string.
Variable discord : Discord.

Lemma checkFields_cases payload :
  (exists p u a, checkFields payload = Valid p u a)
  \/ checkFields payload = MissingFields payload
  \/ (exists e, checkFields payload = Unprintable e
        /\ (ToString (get_prop payload "userName") = inl e
            \/ ToString (get_prop payload "achievementName") = inl e)).
Proof.
  unfold checkFields. cbn [payloadOf userName achievementName].
  destruct (negb (truthy (get_prop payload "userName"))
            || negb (truthy (get_prop payload "achievementName"))); [auto|].
  destruct (ToString (get_prop payload "userName")) as [e|u]; [right; right; eauto|].
  destruct (ToString (get_prop payload "achievementName")) as [e|a];
    [right; right; eauto|].
  left. eauto.
Qed.

Lemma decode_null body :
  decode body = NullPayload ->
  exists text,
    jsonData body = Some text
    /\ (JSON_parse text = inr JSNull \/ JSON_parse text = inr JSUndefined).
Proof.
  unfold decode.
  destruct (jsonData body) as [text|]; [|discriminate].
  destruct (text =? ""); [discriminate|].
  destruct (JSON_parse text) as [e|payload] eqn:Hp; [discriminate|].
  intros H. exists text. split; [reflexivity|].
  destruct payload; auto;
    match type of H with
    | checkFields ?v = _ =>
        destruct (checkFields_cases v) as [(p & u & a & Hc)|[Hc|(e & Hc & _)]]
    end;
    rewrite Hc in H; discriminate.
Qed.

Lemma decode_unprintable body e :
  decode body = Unprintable e ->
  exists text payload,
    jsonData body = Some text /\ JSON_parse text = inr payload
    /\ (ToString (get_prop payload "userName") = inl e
        \/ ToString (get_prop payload "achievementName") = inl e).
Proof.
  unfold decode.
  destruct (jsonData body) as [text|]; [|discriminate].
  destruct (text =? ""); [discriminate|].
  destruct (JSON_parse text) as [e'|payload] eqn:Hp; [discriminate|].
  intros H. exists text, payload. split; [reflexivity|]. split; [exact Hp|].
  clear Hp. destruct payload; try discriminate H;
    match type of H with
    | checkFields ?v = _ =>
        destruct (checkFields_cases v) as [(p & u & a & Hc)|[Hc|(e' & Hc & Hs)]]
    end;
    rewrite Hc in H; try discriminate; injection H as <-; exact Hs.
Qed.

(** The handler never answers twice. *)
Theorem one_response ready req :
  (length (responses
             (trace (route EXPECTED_SECRET TARGET_CHANNEL_ID ready discord req))) <= 1)%nat.
Proof.
  rewrite route_run. unfold routeRun.
  destruct (gate_passes EXPECTED_SECRET req).
  - destruct (multipart req) as [e|body file]; [cbn; lia|].
    destruct ready; [|cbn; lia].
    destruct (decode body) as [e| |v|e|p u a]; try (cbn; lia).
    rewrite trace_call. cbn [trace snd].
    rewrite responses_app, (quiet_responses _ (receivedTrace_quiet u a file)).
    cbn [app].
    destruct (dispatchRun_responses TARGET_CHANNEL_ID discord p file u)
      as [H|[H|[H|H]]]; rewrite H; cbn; lia.
  - destruct (header_missing_or_invalid (authorization req)); cbn; lia.
Qed.


(** A [jsonData] that is the JSON text [null] gets no response: the
    destructuring throws outside every [try], before anything is logged
    or sent. *)
Theorem null_payload_is_never_answered req body file text :
  gate_passes EXPECTED_SECRET req = true ->
  multipart req = MulterParsed body file ->
  jsonData body = Some text ->
  text <> EmptyString ->
  JSON_parse text = inr JSNull ->
  route EXPECTED_SECRET TARGET_CHANNEL_ID true discord req = (Throw destructureNull, []).
Proof.
  intros Hg Hm Hj Hne Hp. rewrite route_run. unfold routeRun. rewrite Hg, Hm.
  unfold decode. rewrite Hj. apply String.eqb_neq in Hne. rewrite Hne, Hp.
  reflexivity.
Qed.

(** The handler's promise rejects only before anything was logged, sent
    or answered, and only for a payload that is [null] or a name whose
    conversion to text throws: no error of the chat library escapes. *)
Theorem rejections_of_the_handler ready req e :
  fst (route EXPECTED_SECRET TARGET_CHANNEL_ID ready discord req) = Throw e ->
  trace (route EXPECTED_SECRET TARGET_CHANNEL_ID ready discord req) = []
  /\ exists body file text,
       multipart req = MulterParsed body file /\ jsonData body = Some text
       /\ (((JSON_parse text = inr JSNull \/ JSON_parse text = inr JSUndefined)
            /\ e = destructureNull)
           \/ exists payload,
                JSON_parse text = inr payload
                /\ (ToString (get_prop payload "userName") = inl e
                    \/ ToString (get_prop payload "achievementName") = inl e)).
Proof.
  rewrite route_run. unfold routeRun.
  destruct (gate_passes EXPECTED_SECRET req).
  - destruct (multipart req) as [e'|body file]; [discriminate|].
    destruct ready; [|discriminate].
    destruct (decode body) as [e'| |v|e'|p u a] eqn:Hd; try discriminate.
    + intros H. injection H as <-. split; [reflexivity|].
      apply decode_null in Hd as (text & Hj & Hp).
      exists body, file, text. auto.
    + intros H. injection H as <-. split; [reflexivity|].
      apply decode_unprintable in Hd as (text & payload & Hj & Hp & Hs).
      exists body, file, text. split; [reflexivity|]. split; [exact Hj|].
      right. exists payload. auto.
    + rewrite fst_call. cbn [fst].
      destruct (dispatchRun_cases TARGET_CHANNEL_ID discord p file u)
        as (_ & Hnothrow & _).
      destruct (fst (dispatchRun TARGET_CHANNEL_ID discord p file u)) as [[]|e'|] eqn:Hc;
        try discriminate.
      exfalso. exact (Hnothrow e' eq_refl).
  - destruct (header_missing_or_invalid (authorization req)); discriminate.
Qed.

(** A 200 is only written after the one message of the request was handed
    to [channel.send] and the send did not fail. *)
Theorem success_means_sent ready req body :
  In (200%Z, body)
     (responses (trace (route EXPECTED_SECRET TARGET_CHANNEL_ID ready discord req))) ->
  body = delivered
  /\ exists embed files,
       sends (trace (route EXPECTED_SECRET TARGET_CHANNEL_ID ready discord req))
       = [(embed, files)]
       /\ send_rejects discord embed files = None.
Proof.
  rewrite route_run. unfold routeRun.
  destruct (gate_passes EXPECTED_SECRET req).
  - destruct (multipart req) as [e|body' file]; [cbn; contradiction|].
    destruct ready; [|cbn; intros [H|[]]; discriminate].
    destruct (decode body') as [e| |v|e|p u a];
      try (cbn; intros [H|[]]; discriminate); try (cbn; contradiction).
    rewrite trace_call. cbn [trace snd].
    rewrite responses_app, sends_app,
      (quiet_responses _ (receivedTrace_quiet u a file)),
      (quiet_sends _ (receivedTrace_quiet u a file)).
    cbn [app].
    destruct (dispatchRun_cases TARGET_CHANNEL_ID discord p file u)
      as (_ & _ & [[_ [H|H]]|(em & fs & _ & _ & Hs & [(e & _ & H)|[Hok H]])]);
      rewrite H; try (intros [Hin|[]]; discriminate).
    intros [Hin|[]]. injection Hin as <-. split; [reflexivity|].
    exists em, fs. auto.
  - destruct (header_missing_or_invalid (authorization req));
      cbn; intros [H|[]]; discriminate.
Qed.

(** A request fetches at most one channel, always the configured one,
    sends at most one message and never sends without having fetched: no
    retry, no second destination. *)
Theorem one_fetch_one_send ready req :
  (fetches (trace (route EXPECTED_SECRET TARGET_CHANNEL_ID ready discord req)) = []
   \/ fetches (trace (route EXPECTED_SECRET TARGET_CHANNEL_ID ready discord req))
      = [TARGET_CHANNEL_ID])
  /\ (length (sends (trace (route EXPECTED_SECRET TARGET_CHANNEL_ID ready discord req)))
      <= 1)%nat
  /\ (sends (trace (route EXPECTED_SECRET TARGET_CHANNEL_ID ready discord req)) <> [] ->
      fetches (trace (route EXPECTED_SECRET TARGET_CHANNEL_ID ready discord req))
      = [TARGET_CHANNEL_ID]).
Proof.
  rewrite route_run. unfold routeRun.
  destruct (gate_passes EXPECTED_SECRET req).
  - destruct (multipart req) as [e|body file];
      [cbn; split; [auto|split; [lia|contradiction]]|].
    destruct ready; [|cbn; split; [auto|split; [lia|contradiction]]].
    destruct (decode body) as [e| |v|e|p u a];
      try (cbn; split; [auto|split; [lia|contradiction]]).
    rewrite trace_call. cbn [trace snd].
    rewrite fetches_app, sends_app,
      (quiet_fetches _ (receivedTrace_quiet u a file)),
      (quiet_sends _ (receivedTrace_quiet u a file)).
    cbn [app].
    destruct (dispatchRun_cases TARGET_CHANNEL_ID discord p file u)
      as (Hf & _ & [[Hs _]|(em & fs & _ & _ & Hs & _)]);
      rewrite Hf, Hs; cbn; (split; [auto|split; [lia|auto]]).
  - destruct (header_missing_or_invalid (authorization req));
      cbn; (split; [auto|split; [lia|contradiction]]).
Qed.

(** Every message sent is green, carries the clock's time, has at most
    one field and at most one file; the chat library can refuse a message,
    it cannot change one. *)
Theorem sent_message_shape ready req embed files :
  In (embed, files)
     (sends (trace (route EXPECTED_SECRET TARGET_CHANNEL_ID ready discord req))) ->
  color embed = Some "#00FF00"
  /\ timestamp embed = Some (now discord)
  /\ (length (fields embed) <= 1)%nat
  /\ (length files <= 1)%nat.
Proof.
  intros Hsent.
  apply route_sends in Hsent as (body & file & p & u & a & _ & _ & _ & _ & _ & Hc).
  apply composeMessage_result in Hc as (u' & a' & _ & _ & Hres).
  destruct file as [f|]; destruct Hres as [-> ->]; cbn;
    destruct (truthy (achievementDescription p)); cbn; auto.
Qed.
End Answers.

(** ** The picture and the order of the checks *)

Section Checks.
Context {rt : JSRuntime}.
Variable EXPECTED_SECRET : string.
Variable TARGET_CHANNEL_ID : string.
Variable discord : Discord.

Lemma iconSourceUsable_throws p :
  truthy (iconSource p) = true ->
  (forall url, iconSource p <> JSString url) ->
  exists e, iconSourceUsable p = throw e.
Proof.
  intros Ht Hs. unfold iconSourceUsable. rewrite Ht.
  destruct (iconSource p) as [| |flag|d|url|items|props];
    try discriminate Ht; try (eexists; reflexivity).
  exfalso. exact (Hs url eq_refl).
Qed.

Lemma composeMessage_throws_on_icon p :
  truthy (iconSource p) = true ->
  (forall url, iconSource p <> JSString url) ->
  exists e, fst (composeMessage discord p None) = Throw e.
Proof.
  intros Ht Hs. destruct (iconSourceUsable_throws p Ht Hs) as [e He].
  pose proof (composeMessage_no_return discord p None) as Hnr.
  unfold composeMessage, illustrate in *. rewrite He in *.
  destruct (describe discord p) as [[embed|e'|] t]; cbn in *; eauto.
  contradiction.
Qed.

(** Without an uploaded file, an [iconSource] that is truthy and not a
    string (a number, [true], an array, an object) makes
    [iconSource.startsWith] throw inside the [try]: the request is
    answered 500 and nothing is sent. *)
Theorem non_text_icon_is_a_server_error req body p u a :
  gate_passes EXPECTED_SECRET req = true ->
  multipart req = MulterParsed body None ->
  decode body = Valid p u a ->
  channels_fetch discord TARGET_CHANNEL_ID = FetchResolved (Some TextChannel) ->
  truthy (iconSource p) = true ->
  (forall url, iconSource p <> JSString url) ->
  responses (trace (route EXPECTED_SECRET TARGET_CHANNEL_ID true discord req))
  = [(500%Z, sendFailed)]
  /\ sends (trace (route EXPECTED_SECRET TARGET_CHANNEL_ID true discord req)) = [].
Proof.
  intros Hg Hm Hd Hf Ht Hs.
  destruct (composeMessage_throws_on_icon p Ht Hs) as [e He].
  pose proof (composeMessage_quiet discord p None) as Hq. unfold quiet, trace in Hq.
  rewrite route_run. unfold routeRun. rewrite Hg, Hm, Hd.
  rewrite trace_call. cbn [trace snd].
  rewrite responses_app, sends_app,
    (quiet_responses _ (receivedTrace_quiet u a None)),
    (quiet_sends _ (receivedTrace_quiet u a None)).
  cbn [app]. unfold dispatchRun. rewrite Hf.
  destruct (composeMessage discord p None) as [c t]. cbn [fst snd] in *. subst c.
  cbn [trace snd responses sends].
  rewrite responses_app, sends_app, (quiet_responses _ Hq), (quiet_sends _ Hq).
  split; reflexivity.
Qed.

(** With an uploaded file [iconSource] is not read at all: the whole run
    of the dispatcher is the same whatever it is, even a value that
    would make [startsWith] throw. *)
Theorem icon_is_not_read_with_a_file p p' file :
  userName p = userName p' ->
  achievementName p = achievementName p' ->
  achievementDescription p = achievementDescription p' ->
  dispatch TARGET_CHANNEL_ID discord p (Some file)
  = dispatch TARGET_CHANNEL_ID discord p' (Some file).
Proof.
  destruct p as [u a d i], p' as [u' a' d' i']. cbn. intros <- <- <-.
  reflexivity.
Qed.

(** A request that fails the credential gate is answered from its
    [Authorization] header alone: the upload, the readiness flag and the
    chat library play no part. *)
Theorem gate_comes_first ready ready' discord' req req' :
  gate_passes EXPECTED_SECRET req = false ->
  authorization req' = authorization req ->
  route EXPECTED_SECRET TARGET_CHANNEL_ID ready discord req
  = route EXPECTED_SECRET TARGET_CHANNEL_ID ready' discord' req'.
Proof.
  intros Hg Ha.
  assert (gate_passes EXPECTED_SECRET req' = false) as Hg'
    by (unfold gate_passes in *; rewrite Ha; exact Hg).
  rewrite !route_run. unfold routeRun. rewrite Hg, Hg', Ha. reflexivity.
Qed.
End Checks.

(** ** Secrets and tokens *)

Lemma up_to_space_has_no_space (s : string) : has_space (up_to_space s) = false.
Proof.
  induction s as [|c s IH]; [reflexivity|].
  cbn. destruct (Ascii.eqb c " ") eqn:Hc; [reflexivity|].
  cbn. rewrite Hc, IH. reflexivity.
Qed.

Lemma gate_passes_token (secret : string) (req : Request) :
  gate_passes secret req = true ->
  exists rest, authorization req = Some ("Bearer " ++ rest) /\ up_to_space rest = secret.
Proof.
  unfold gate_passes.
  destruct (authorization req) as [h|]; [|discriminate].
  intros H. apply andb_prop in H as [H1 H2].
  apply negb_true_iff in H1, H2.
  apply header_invalid_iff in H1 as [rest ->].
  rewrite providedSecret_bearer in H2. cbn in H2.
  apply negb_false_iff, String.eqb_eq in H2. eauto.
Qed.

(** The secret is compared with one space-separated segment, so a secret
    that holds a space matches no header: every request is turned away. *)
Theorem secret_with_space_locks_out (secret : string) (req : Request) (next : M unit) :
  has_space secret = true ->
  authenticateRequest secret req next = unauthorized
  \/ authenticateRequest secret req next = forbidden.
Proof.
  intros Hsp. destruct (gate_passes secret req) eqn:Hg.
  - exfalso. apply gate_passes_token in Hg as (rest & _ & <-).
    rewrite up_to_space_has_no_space in Hsp. discriminate.
  - destruct (authenticateRequest_rejects secret req next Hg) as [[H _]|[H _]]; auto.
Qed.

Lemma started_secret env config :
  startup env = Started config -> configSecret config <> EmptyString.
Proof.
  unfold startup.
  destruct (env "FOUNDRY_SECRET") as [secret|]; [|discriminate].
  destruct (env "DISCORD_CHANNEL_ID") as [channel|];
    [|cbn; rewrite orb_true_r; discriminate].
  destruct (env "DISCORD_BOT_TOKEN") as [token|];
    [|cbn; rewrite !orb_true_r; discriminate].
  cbn [falsy_text].
  destruct (secret =? "") eqn:Hs; [discriminate|].
  destruct (channel =? ""); [discriminate|].
  destruct (token =? ""); [discriminate|].
  cbn [orb]. intros H. injection H as <-. apply String.eqb_neq in Hs. exact Hs.
Qed.

(** A configuration that start-up accepts has a secret, a channel and a
    token that are the environment's and are not empty. *)
Theorem started_configuration env config :
  startup env = Started config ->
  env "FOUNDRY_SECRET" = Some (configSecret config)
  /\ env "DISCORD_CHANNEL_ID" = Some (configChannel config)
  /\ env "DISCORD_BOT_TOKEN" = Some (configToken config)
  /\ configSecret config <> EmptyString
  /\ configChannel config <> EmptyString
  /\ configToken config <> EmptyString
  /\ (configPort config = PortNumber 3000 <-> falsy_text (env "PORT") = true).
Proof.
  unfold startup.
  destruct (env "FOUNDRY_SECRET") as [secret|]; [|discriminate].
  destruct (env "DISCORD_CHANNEL_ID") as [channel|];
    [|cbn; rewrite orb_true_r; discriminate].
  destruct (env "DISCORD_BOT_TOKEN") as [token|];
    [|cbn; rewrite !orb_true_r; discriminate].
  cbn [falsy_text].
  destruct (secret =? "") eqn:Hs; [discriminate|].
  destruct (channel =? "") eqn:Hc; [discriminate|].
  destruct (token =? "") eqn:Ht; [discriminate|].
  cbn [orb]. intros H. injection H as <-. cbn.
  apply String.eqb_neq in Hs, Hc, Ht.
  repeat (split; [assumption || reflexivity|]).
  destruct (env "PORT") as [port|]; cbn; [|tauto].
  destruct (port =? ""); split; intros; congruence.
Qed.

(** Start-up stops the process with code 1 as soon as one of the three
    variables is missing or empty; [PORT] is never required. *)
Theorem startup_needs_three_variables env :
  falsy_text (env "FOUNDRY_SECRET") = true
  \/ falsy_text (env "DISCORD_CHANNEL_ID") = true
  \/ falsy_text (env "DISCORD_BOT_TOKEN") = true ->
  startup env = Exit 1 [missingVariables].
Proof.
  unfold startup. intros [H|[H|H]]; rewrite H, ?orb_true_r; reflexivity.
Qed.

(** On a server that started, a ["Bearer "] header whose token is empty
    (nothing, or a space, after the prefix) is answered 403. *)
Theorem started_server_forbids_empty_token env config req rest next :
  startup env = Started config ->
  authorization req = Some ("Bearer " ++ rest) ->
  rest = EmptyString \/ startsWith rest " " = true ->
  authenticateRequest (configSecret config) req next = forbidden.
Proof.
  intros Hstart Hh Hrest.
  apply started_secret in Hstart as Hne.
  assert (up_to_space rest = EmptyString) as Htoken.
  { destruct Hrest as [->|Hp]; [reflexivity|].
    apply startsWith_iff in Hp as [rest' ->]. reflexivity. }
  assert (gate_passes (configSecret config) req = false) as Hg.
  { destruct (gate_passes (configSecret config) req) eqn:Hg; [|reflexivity].
    apply gate_passes_token in Hg as (rest' & Hh' & Hs).
    rewrite Hh in Hh'. cbn in Hh'. injection Hh' as <-. congruence. }
  destruct (authenticateRequest_rejects (configSecret config) req next Hg)
    as [[_ Hbad]|[H _]]; [|exact H].
  rewrite Hh in Hbad.
  assert (header_missing_or_invalid (Some ("Bearer " ++ rest)) = false) as Hok
    by (apply header_invalid_iff; eauto).
  congruence.
Qed.

(** ** The readiness flag over the life of the process *)

Section Readiness.
Context {rt : JSRuntime}.
Variable EXPECTED_SECRET : string.
Variable TARGET_CHANNEL_ID : string.

Lemma onClientEvent_keeps_ready st ev :
  readyFlag st = true -> readyFlag (fst (onClientEvent st ev)) = true.
Proof.
  unfold onClientEvent. intros H.
  destruct (exited st); [exact H|].
  destruct ev; [destruct (readyListener st)| |]; cbn; auto.
Qed.

Lemma step_keeps_ready st input :
  readyFlag st = true ->
  readyFlag (fst (step EXPECTED_SECRET TARGET_CHANNEL_ID st input)) = true.
Proof.
  unfold step. intros H. destruct (exited st); [exact H|].
  destruct input; [apply onClientEvent_keeps_ready|]; exact H.
Qed.

Lemma serve_cons st input rest :
  serve EXPECTED_SECRET TARGET_CHANNEL_ID st (input :: rest)
  = (fst (serve EXPECTED_SECRET TARGET_CHANNEL_ID
            (fst (step EXPECTED_SECRET TARGET_CHANNEL_ID st input)) rest),
     snd (step EXPECTED_SECRET TARGET_CHANNEL_ID st input)
     ++ snd (serve EXPECTED_SECRET TARGET_CHANNEL_ID
               (fst (step EXPECTED_SECRET TARGET_CHANNEL_ID st input)) rest))%list.
Proof.
  cbn [serve]. destruct (step EXPECTED_SECRET TARGET_CHANNEL_ID st input) as [st' t].
  cbn [fst snd].
  destruct (serve EXPECTED_SECRET TARGET_CHANNEL_ID st' rest). reflexivity.
Qed.

(** Once set, the flag stays set: nothing in the process clears it. *)
Theorem readiness_is_kept st inputs :
  readyFlag st = true ->
  readyFlag (fst (serve EXPECTED_SECRET TARGET_CHANNEL_ID st inputs)) = true.
Proof.
  revert st. induction inputs as [|input rest IH]; intros st H; [exact H|].
  rewrite serve_cons. cbn [fst]. apply IH, step_keeps_ready, H.
Qed.

Lemma ready_route_statuses discord req :
  Forall (fun response => fst response <> 503%Z)
         (responses (trace (route EXPECTED_SECRET TARGET_CHANNEL_ID true discord req))).
Proof.
  rewrite route_run. unfold routeRun.
  destruct (gate_passes EXPECTED_SECRET req).
  - destruct (multipart req) as [e|body file]; [constructor|].
    destruct (decode body) as [e| |v|e|p u a];
      try (cbn; repeat constructor; discriminate).
    rewrite trace_call. cbn [trace snd].
    rewrite responses_app, (quiet_responses _ (receivedTrace_quiet u a file)).
    cbn [app].
    destruct (dispatchRun_responses TARGET_CHANNEL_ID discord p file u)
      as [H|[H|[H|H]]]; rewrite H; repeat constructor; discriminate.
  - destruct (header_missing_or_invalid (authorization req));
      cbn; repeat constructor; discriminate.
Qed.

Lemma client_event_is_quiet st ev : forallb is_console (snd (onClientEvent st ev)) = true.
Proof.
  unfold onClientEvent. destruct (exited st); [reflexivity|].
  destruct ev; [destruct (readyListener st)| |]; reflexivity.
Qed.

(** After the flag is set no request is answered 503 any more. *)
Theorem ready_server_never_answers_503 st inputs :
  readyFlag st = true ->
  Forall (fun response => fst response <> 503%Z)
         (responses (snd (serve EXPECTED_SECRET TARGET_CHANNEL_ID st inputs))).
Proof.
  revert st. induction inputs as [|input rest IH]; intros st H; [constructor|].
  rewrite serve_cons. cbn [snd]. rewrite responses_app. apply Forall_app. split.
  - unfold step. destruct (exited st); [constructor|].
    destruct input as [ev|req discord].
    + rewrite (quiet_responses _ (client_event_is_quiet st ev)). constructor.
    + cbn [snd]. rewrite H. apply ready_route_statuses.
  - apply IH, step_keeps_ready, H.
Qed.

Lemma waiting_route discord req :
  Forall (fun response => In (fst response) [401; 403; 503]%Z)
         (responses (trace (route EXPECTED_SECRET TARGET_CHANNEL_ID false discord req)))
  /\ contacts_chat (trace (route EXPECTED_SECRET TARGET_CHANNEL_ID false discord req))
     = false.
Proof.
  rewrite route_run. unfold routeRun.
  destruct (gate_passes EXPECTED_SECRET req).
  - destruct (multipart req) as [e|body file]; cbn;
      (split; [repeat (apply Forall_cons; [cbn; auto 6|]); apply Forall_nil
              |reflexivity]).
  - destruct (header_missing_or_invalid (authorization req)); cbn;
      (split; [repeat (apply Forall_cons; [cbn; auto 6|]); apply Forall_nil
              |reflexivity]).
Qed.

Lemma step_keeps_waiting st input :
  readyFlag st = false ->
  (forall tag, input <> FromClient (ClientReady tag)) ->
  readyFlag (fst (step EXPECTED_SECRET TARGET_CHANNEL_ID st input)) = false.
Proof.
  unfold step, onClientEvent. intros H Hin. destruct (exited st); [exact H|].
  destruct input as [[tag|e|e]|req discord]; cbn; auto.
  exfalso. exact (Hin tag eq_refl).
Qed.

(** Until the chat client emits ['ready'] the responses the code of the
    route writes are 401, 403 or 503 only, and it does not call the chat
    service.  (An error of the upload middleware is passed on to Express,
    which answers it itself.) *)
Theorem before_ready_nothing_is_sent inputs :
  (forall tag, ~ In (FromClient (ClientReady tag)) inputs) ->
  Forall (fun response => In (fst response) [401; 403; 503]%Z)
         (responses
            (snd (serve EXPECTED_SECRET TARGET_CHANNEL_ID initialProcess inputs)))
  /\ contacts_chat
       (snd (serve EXPECTED_SECRET TARGET_CHANNEL_ID initialProcess inputs)) = false.
Proof.
  assert (forall st, readyFlag st = false ->
            (forall tag, ~ In (FromClient (ClientReady tag)) inputs) ->
            Forall (fun response => In (fst response) [401; 403; 503]%Z)
              (responses (snd (serve EXPECTED_SECRET TARGET_CHANNEL_ID st inputs)))
            /\ contacts_chat (snd (serve EXPECTED_SECRET TARGET_CHANNEL_ID st inputs))
               = false) as Hgen.
  { induction inputs as [|input rest IH]; intros st H Hno;
      [split; [constructor|reflexivity]|].
    assert (forall tag, input <> FromClient (ClientReady tag)) as Hinput
      by (intros tag Heq; apply (Hno tag); left; exact Heq).
    assert (forall tag, ~ In (FromClient (ClientReady tag)) rest) as Hrest
      by (intros tag Hin; apply (Hno tag); right; exact Hin).
    destruct (IH (fst (step EXPECTED_SECRET TARGET_CHANNEL_ID st input))
                (step_keeps_waiting st input H Hinput) Hrest) as [IHr IHc].
    rewrite serve_cons. cbn [snd].
    rewrite responses_app, contacts_chat_app, IHc, orb_false_r.
    assert (Forall (fun response => In (fst response) [401; 403; 503]%Z)
              (responses (snd (step EXPECTED_SECRET TARGET_CHANNEL_ID st input)))
            /\ contacts_chat (snd (step EXPECTED_SECRET TARGET_CHANNEL_ID st input))
               = false) as [Hr Hc].
    { unfold step. destruct (exited st); [split; [constructor|reflexivity]|].
      destruct input as [ev|req discord].
      - rewrite (quiet_responses _ (client_event_is_quiet st ev)),
          (quiet_no_chat _ (client_event_is_quiet st ev)).
        split; [constructor|reflexivity].
      - cbn [snd]. rewrite H. apply waiting_route. }
    split; [apply Forall_app; auto|exact Hc]. }
  intros Hno. apply Hgen; [reflexivity|exact Hno].
Qed.
End Readiness.

(** ** Cross-origin requests *)

Lemma indexOf_absent (l : list string) (x : string) :
  indexOf l x = (-1)%Z <-> ~ In x l.
Proof.
  assert (forall i, (0 <= i)%Z -> indexOfFrom x l i = (-1)%Z <-> ~ In x l) as Hgen.
  { induction l as [|y l IH]; intros i Hi; cbn; [tauto|].
    destruct (y =? x) eqn:Hyx.
    - apply String.eqb_eq in Hyx. split; [lia|intros H; exfalso; apply H; auto].
    - apply String.eqb_neq in Hyx. rewrite (IH (i + 1)%Z) by lia. tauto. }
  unfold indexOf. apply Hgen. lia.
Qed.

(** A request without an [Origin] header (or with an empty one) and a
    request from one of the two listed origins are let through; any other
    origin is refused with the error [Not allowed by CORS] after a warning
    that names it.  The comparison is exact. *)
Theorem cors_origin_rule (origin : option string) :
  (corsOrigin origin = pure (inr true)
   /\ (origin = None \/ origin = Some EmptyString
       \/ origin = Some "http://localhost:30000"
       \/ origin = Some "https://your-foundry-domain.com"))
  \/ (exists o,
        origin = Some o /\ o <> EmptyString
        /\ o <> "http://localhost:30000" /\ o <> "https://your-foundry-domain.com"
        /\ corsOrigin origin
           = (Normal (inl (PlainError "Not allowed by CORS")),
              [Console Warn ("CORS blocked for origin: " ++ o) []])).
Proof.
  unfold corsOrigin.
  destruct origin as [o|]; [|left; auto].
  cbn [falsy_text optional_text].
  destruct (o =? "") eqn:Hempty.
  - apply String.eqb_eq in Hempty as ->. left. auto.
  - apply String.eqb_neq in Hempty.
    destruct (indexOf allowedOrigins o =? -1)%Z eqn:Hidx; cbn [negb orb].
    + apply Z.eqb_eq, indexOf_absent in Hidx. right. exists o.
      split; [reflexivity|]. split; [exact Hempty|].
      split; [intros ->; apply Hidx; cbn; auto|].
      split; [intros ->; apply Hidx; cbn; auto|reflexivity].
    + apply Z.eqb_neq in Hidx. left. split; [reflexivity|].
      destruct (in_dec string_dec o allowedOrigins) as [Hin|Hout].
      * destruct Hin as [<-|[<-|[]]]; auto.
      * apply indexOf_absent in Hout. contradiction.
Qed.

(** ** More properties on example requests *)

Lemma null_payload_is_never_answered_example :
  gate_passes exampleSecret nullRequest = true
  /\ multipart nullRequest = MulterParsed {| jsonData := Some "null" |} None
  /\ jsonData {| jsonData := Some "null" |} = Some "null"
  /\ "null" <> EmptyString
  /\ JSON_parse (JSRuntime := exampleRuntime) "null" = inr JSNull
  /\ exampleRoute true exampleDiscord nullRequest = (Throw destructureNull, []).
Proof.
  assert (gate_passes exampleSecret nullRequest = true) as Hgate
    by (vm_compute; reflexivity).
  assert ("null" <> EmptyString) as Hne by discriminate.
  assert (JSON_parse (JSRuntime := exampleRuntime) "null" = inr JSNull) as Hparse
    by (vm_compute; reflexivity).
  split; [exact Hgate|]. split; [reflexivity|]. split; [reflexivity|].
  split; [exact Hne|]. split; [exact Hparse|].
  exact (null_payload_is_never_answered (rt := exampleRuntime) exampleSecret
           exampleChannel exampleDiscord nullRequest _ None "null"
           Hgate eq_refl eq_refl Hne Hparse).
Defined.

Lemma rejections_of_the_handler_example :
  fst (exampleRoute true exampleDiscord nullRequest) = Throw destructureNull
  /\ trace (exampleRoute true exampleDiscord nullRequest) = []
  /\ exists body file text,
       multipart nullRequest = MulterParsed body file /\ jsonData body = Some text
       /\ (((JSON_parse (JSRuntime := exampleRuntime) text = inr JSNull
             \/ JSON_parse (JSRuntime := exampleRuntime) text = inr JSUndefined)
            /\ destructureNull = destructureNull)
           \/ exists payload,
                JSON_parse (JSRuntime := exampleRuntime) text = inr payload
                /\ (ToString (rt := exampleRuntime) (get_prop payload "userName")
                    = inl destructureNull
                    \/ ToString (rt := exampleRuntime)
                         (get_prop payload "achievementName") = inl destructureNull)).
Proof.
  assert (fst (exampleRoute true exampleDiscord nullRequest) = Throw destructureNull)
    as Hthrow by (vm_compute; reflexivity).
  split; [exact Hthrow|].
  exact (rejections_of_the_handler (rt := exampleRuntime) exampleSecret exampleChannel
           exampleDiscord true nullRequest destructureNull Hthrow).
Defined.

Lemma success_means_sent_example :
  let req := exampleRequest bearer alice None in
  In (200%Z, delivered) (responses (trace (exampleRoute true exampleDiscord req)))
  /\ delivered = delivered
  /\ exists embed files,
       sends (trace (exampleRoute true exampleDiscord req)) = [(embed, files)]
       /\ send_rejects exampleDiscord embed files = None.
Proof.
  intros req.
  assert (In (200%Z, delivered)
             (responses (trace (exampleRoute true exampleDiscord req)))) as Hin
    by (vm_compute; left; reflexivity).
  split; [exact Hin|].
  exact (success_means_sent (rt := exampleRuntime) exampleSecret exampleChannel
           exampleDiscord true req delivered Hin).
Defined.

Lemma sent_message_shape_example :
  let req := exampleRequest bearer aliceWithIcon (Some trophy) in
  let embed := aliceEmbed aboutDragon (Some "attachment://trophy.png") None in
  In (embed, [trophyAttachment]) (sends (trace (exampleRoute true exampleDiscord req)))
  /\ color embed = Some "#00FF00"
  /\ timestamp embed = Some (now exampleDiscord)
  /\ (length (fields embed) <= 1)%nat
  /\ (length [trophyAttachment] <= 1)%nat.
Proof.
  intros req embed.
  assert (In (embed, [trophyAttachment])
             (sends (trace (exampleRoute true exampleDiscord req)))) as Hsent
    by (vm_compute; left; reflexivity).
  split; [exact Hsent|].
  exact (sent_message_shape (rt := exampleRuntime) exampleSecret exampleChannel
           exampleDiscord true req embed [trophyAttachment] Hsent).
Defined.

Lemma non_text_icon_is_a_server_error_example :
  let body := {| jsonData := Some numberIconText |} in
  let p := payloadOf numberIconPayload in
  let run := route (rt := numberIconRuntime) exampleSecret exampleChannel true
               exampleDiscord numberIconRequest in
  gate_passes exampleSecret numberIconRequest = true
  /\ multipart numberIconRequest = MulterParsed body None
  /\ decode (rt := numberIconRuntime) body = Valid p "Alice" "Dragon Slayer"
  /\ channels_fetch exampleDiscord exampleChannel = FetchResolved (Some TextChannel)
  /\ truthy (iconSource p) = true
  /\ (forall url, iconSource p <> JSString url)
  /\ responses (trace run) = [(500%Z, sendFailed)]
  /\ sends (trace run) = [].
Proof.
  intros body p run.
  assert (gate_passes exampleSecret numberIconRequest = true) as Hgate
    by (vm_compute; reflexivity).
  assert (decode (rt := numberIconRuntime) body = Valid p "Alice" "Dragon Slayer")
    as Hvalid by (vm_compute; reflexivity).
  assert (forall url, iconSource p <> JSString url) as Hnot by (intros url; discriminate).
  split; [exact Hgate|]. split; [reflexivity|]. split; [exact Hvalid|].
  split; [reflexivity|]. split; [reflexivity|]. split; [exact Hnot|].
  exact (non_text_icon_is_a_server_error (rt := numberIconRuntime) exampleSecret
           exampleChannel exampleDiscord numberIconRequest body p
           "Alice" "Dragon Slayer" Hgate eq_refl Hvalid eq_refl eq_refl Hnot).
Defined.

Lemma icon_is_not_read_with_a_file_example :
  let p := payloadOf numberIconPayload in
  let p' := payloadOf (jsonObject alice) in
  userName p = userName p'
  /\ achievementName p = achievementName p'
  /\ achievementDescription p = achievementDescription p'
  /\ dispatch (rt := exampleRuntime) exampleChannel exampleDiscord p (Some trophy)
     = dispatch (rt := exampleRuntime) exampleChannel exampleDiscord p' (Some trophy).
Proof.
  intros p p'.
  split; [reflexivity|]. split; [reflexivity|]. split; [reflexivity|].
  exact (icon_is_not_read_with_a_file (rt := exampleRuntime) exampleChannel
           exampleDiscord p p' trophy eq_refl eq_refl eq_refl).
Defined.

Lemma gate_comes_first_example :
  let req := exampleRequest (Some "Bearer wrong") alice (Some trophy) in
  let req' := {| authorization := Some "Bearer wrong";
                 multipart := MulterError (LibraryError "File too large") |} in
  gate_passes exampleSecret req = false
  /\ authorization req' = authorization req
  /\ exampleRoute true exampleDiscord req
     = route (rt := exampleRuntime) exampleSecret exampleChannel false
         deletedChannelDiscord req'.
Proof.
  intros req req'.
  assert (gate_passes exampleSecret req = false) as Hgate by (vm_compute; reflexivity).
  split; [exact Hgate|]. split; [reflexivity|].
  exact (gate_comes_first (rt := exampleRuntime) exampleSecret exampleChannel
           exampleDiscord true false deletedChannelDiscord req req' Hgate eq_refl).
Defined.

Lemma secret_with_space_locks_out_example :
  let req := exampleRequest (Some "Bearer my secret") alice None in
  let next := respond 200 delivered in
  has_space "my secret" = true
  /\ (authenticateRequest "my secret" req next = unauthorized
      \/ authenticateRequest "my secret" req next = forbidden).
Proof.
  intros req next.
  split; [reflexivity|].
  exact (secret_with_space_locks_out "my secret" req next eq_refl).
Defined.

Lemma started_configuration_example :
  startup exampleEnv = Started exampleConfiguration
  /\ exampleEnv "FOUNDRY_SECRET" = Some (configSecret exampleConfiguration)
  /\ exampleEnv "DISCORD_CHANNEL_ID" = Some (configChannel exampleConfiguration)
  /\ exampleEnv "DISCORD_BOT_TOKEN" = Some (configToken exampleConfiguration)
  /\ configSecret exampleConfiguration <> EmptyString
  /\ configChannel exampleConfiguration <> EmptyString
  /\ configToken exampleConfiguration <> EmptyString
  /\ (configPort exampleConfiguration = PortNumber 3000
      <-> falsy_text (exampleEnv "PORT") = true).
Proof.
  assert (startup exampleEnv = Started exampleConfiguration) as Hstart
    by (vm_compute; reflexivity).
  split; [exact Hstart|].
  exact (started_configuration exampleEnv exampleConfiguration Hstart).
Defined.

Lemma started_server_forbids_empty_token_example :
  let req := exampleRequest (Some "Bearer  s3cret") alice None in
  let next := respond 200 delivered in
  startup exampleEnv = Started exampleConfiguration
  /\ authorization req = Some ("Bearer " ++ " s3cret")
  /\ (" s3cret" = EmptyString \/ startsWith " s3cret" " " = true)
  /\ authenticateRequest (configSecret exampleConfiguration) req next = forbidden.
Proof.
  intros req next.
  assert (startup exampleEnv = Started exampleConfiguration) as Hstart
    by (vm_compute; reflexivity).
  assert (" s3cret" = EmptyString \/ startsWith " s3cret" " " = true) as Hrest
    by (right; reflexivity).
  split; [exact Hstart|]. split; [reflexivity|]. split; [exact Hrest|].
  exact (started_server_forbids_empty_token exampleEnv exampleConfiguration req
           " s3cret" next Hstart eq_refl Hrest).
Defined.

Lemma readiness_is_kept_example :
  let inputs := [FromClient (ClientError (LibraryError "socket closed"));
                 FromClient (ClientReady (Some "bot#0001"));
                 FromHttp (exampleRequest bearer alice None) exampleDiscord] in
  readyFlag readyProcess = true
  /\ readyFlag (fst (exampleServe readyProcess inputs)) = true.
Proof.
  intros inputs.
  split; [reflexivity|].
  exact (readiness_is_kept (rt := exampleRuntime) exampleSecret exampleChannel
           readyProcess inputs eq_refl).
Defined.

Lemma ready_server_never_answers_503_example :
  let inputs := [FromHttp (exampleRequest bearer alice None) exampleDiscord;
                 FromHttp (exampleRequest None alice None) exampleDiscord] in
  readyFlag readyProcess = true
  /\ Forall (fun response => fst response <> 503%Z)
            (responses (snd (exampleServe readyProcess inputs))).
Proof.
  intros inputs.
  split; [reflexivity|].
  exact (ready_server_never_answers_503 (rt := exampleRuntime) exampleSecret
           exampleChannel readyProcess inputs eq_refl).
Defined.

Lemma before_ready_nothing_is_sent_example :
  let inputs := [FromHttp (exampleRequest bearer alice None) exampleDiscord;
                 FromClient (ClientError (LibraryError "socket closed"));
                 FromHttp (exampleRequest None alice None) exampleDiscord] in
  (forall tag, ~ In (FromClient (ClientReady tag)) inputs)
  /\ Forall (fun response => In (fst response) [401; 403; 503]%Z)
            (responses (snd (exampleServe initialProcess inputs)))
  /\ contacts_chat (snd (exampleServe initialProcess inputs)) = false.
Proof.
  intros inputs.
  assert (forall tag, ~ In (FromClient (ClientReady tag)) inputs) as Hno
    by (intros tag [H|[H|[H|[]]]]; discriminate).
  split; [exact Hno|].
  exact (before_ready_nothing_is_sent (rt := exampleRuntime) exampleSecret
           exampleChannel inputs Hno).
Defined.

(** The same requests around a ['ready'] event: 503 before, delivered
    after. *)
Example ready_event_opens_the_route :
  map fst (responses (snd (exampleServe initialProcess
     [FromHttp (exampleRequest bearer alice None) exampleDiscord;
      FromClient (ClientReady (Some "bot#0001"));
      FromClient (ClientReady (Some "bot#0001"));
      FromHttp (exampleRequest bearer alice None) exampleDiscord])))
  = [503%Z; 200%Z].
Proof. vm_compute. reflexivity. Qed.

Lemma notification_is_delivered_example :
  let req := exampleRequest bearer aliceWithIcon None in
  let body := {| jsonData := Some (jsonText aliceWithIcon) |} in
  let p := payloadOf (jsonObject aliceWithIcon) in
  gate_passes exampleSecret req = true
  /\ multipart req = MulterParsed body None
  /\ decode (rt := exampleRuntime) body = Valid p "Alice" "Dragon Slayer"
  /\ channels_fetch exampleDiscord exampleChannel = FetchResolved (Some TextChannel)
  /\ (forall call, builder_throws exampleDiscord call = None)
  /\ (forall embed files, send_rejects exampleDiscord embed files = None)
  /\ (@None UploadedFile = None ->
      truthy (iconSource p) = false \/ exists url, iconSource p = JSString url)
  /\ responses (trace (exampleRoute true exampleDiscord req)) = [(200%Z, delivered)]
  /\ sends (trace (exampleRoute true exampleDiscord req))
     = [(messageEmbed (now exampleDiscord) "Alice" "Dragon Slayer"
           (achievementDescription p) None (trustedIcon (iconSource p)),
         [])].
Proof.
  intros req body p.
  assert (gate_passes exampleSecret req = true) as Hgate by (vm_compute; reflexivity).
  assert (decode (rt := exampleRuntime) body = Valid p "Alice" "Dragon Slayer")
    as Hvalid by (vm_compute; reflexivity).
  assert (@None UploadedFile = None ->
          truthy (iconSource p) = false \/ exists url, iconSource p = JSString url)
    as Hicon by (intros _; right; eexists; reflexivity).
  split; [exact Hgate|]. split; [reflexivity|]. split; [exact Hvalid|].
  split; [reflexivity|]. split; [reflexivity|]. split; [reflexivity|].
  split; [exact Hicon|].
  exact (notification_is_delivered (rt := exampleRuntime) exampleSecret exampleChannel
           exampleDiscord req body None p "Alice" "Dragon Slayer"
           Hgate eq_refl Hvalid eq_refl (fun _ => eq_refl) (fun _ _ => eq_refl) Hicon).
Defined.

(** ** Names that do not convert to text *)

Section Names.
Context {rt : JSRuntime}.
Variable EXPECTED_SECRET : string.
Variable TARGET_CHANNEL_ID : string.
Variable discord : Discord.

(** A [userName] that is an object with a [toString] property of its own
    passes the validation (an object is truthy) and then makes the first
    template literal throw, outside every [try]: the handler's promise
    rejects with a [TypeError], and the handler has written no response,
    logged nothing and sent nothing. *)
Theorem unprintable_name_is_never_answered req body file text payload props value :
  gate_passes EXPECTED_SECRET req = true ->
  multipart req = MulterParsed body file ->
  jsonData body = Some text ->
  text <> EmptyString ->
  JSON_parse text = inr payload ->
  get_prop payload "userName" = JSObject props ->
  lookup_prop "toString" props = Some value ->
  truthy (get_prop payload "achievementName") = true ->
  route EXPECTED_SECRET TARGET_CHANNEL_ID true discord req = (Throw notPrimitive, []).
Proof.
  intros Hg Hm Hj Hne Hp Hu Hts Ha.
  rewrite route_run. unfold routeRun. rewrite Hg, Hm.
  unfold decode. rewrite Hj. apply String.eqb_neq in Hne. rewrite Hne, Hp.
  assert (checkFields payload = Unprintable notPrimitive) as Hc.
  { unfold checkFields. cbn [payloadOf userName achievementName].
    rewrite Hu, Ha. cbn [truthy negb orb ToString]. rewrite Hts. reflexivity. }
  destruct payload; try (cbn in Hu; discriminate Hu); rewrite Hc; reflexivity.
Qed.
End Names.

Lemma unprintable_name_is_never_answered_example :
  let body := {| jsonData := Some objectNameText |} in
  gate_passes exampleSecret objectNameRequest = true
  /\ multipart objectNameRequest = MulterParsed body None
  /\ jsonData body = Some objectNameText
  /\ objectNameText <> EmptyString
  /\ JSON_parse (JSRuntime := objectNameRuntime) objectNameText = inr objectNamePayload
  /\ get_prop objectNamePayload "userName" = JSObject [("toString", JSString "x")]
  /\ lookup_prop "toString" [("toString", JSString "x")] = Some (JSString "x")
  /\ truthy (get_prop objectNamePayload "achievementName") = true
  /\ route (rt := objectNameRuntime) exampleSecret exampleChannel true exampleDiscord
       objectNameRequest = (Throw notPrimitive, []).
Proof.
  intros body.
  assert (gate_passes exampleSecret objectNameRequest = true) as Hgate
    by (vm_compute; reflexivity).
  assert (objectNameText <> EmptyString) as Hne by (vm_compute; discriminate).
  assert (JSON_parse (JSRuntime := objectNameRuntime) objectNameText
          = inr objectNamePayload) as Hparse by (vm_compute; reflexivity).
  split; [exact Hgate|]. split; [reflexivity|]. split; [reflexivity|].
  split; [exact Hne|]. split; [exact Hparse|]. split; [reflexivity|].
  split; [reflexivity|]. split; [reflexivity|].
  exact (unprintable_name_is_never_answered (rt := objectNameRuntime) exampleSecret
           exampleChannel exampleDiscord objectNameRequest body None objectNameText
           objectNamePayload [("toString", JSString "x")] (JSString "x")
           Hgate eq_refl eq_refl Hne Hparse eq_refl eq_refl eq_refl).
Defined.
